(** * MyMPU: a driver for the MPU-6050 accelerometer (MyMPU.py, main.py)

    Shallow embedding of the driver class [MyMPU] and of the demo [Manager],
    followed by the properties of the specification checked against it.

    Conventions of the embedding.
    - Python integers are [Z]; [&], [|], [<<] are [Z.land], [Z.lor],
      [Z.shiftl]; where the shift count is an argument of the method, [<<] is
      [lshift], which raises on a negative count.
    - A method of [MyMPU] is a computation [M A]: it takes the object, and
      gives back either a value or a raised exception, together with the
      object as the method left it (what was mutated before a [raise] stays
      mutated).
    - The transport [i2c.I2C] is not part of the repository.  It is modelled
      as a register file behind the bus, the chronological list of completed
      transactions (with the blocking waits of the builtin [sleep] on the same
      time line), and a schedule telling which of the coming transactions are
      not acknowledged.
    - Python floats are idealised: the quotients of [get_accelerometer_values]
      are exact rationals ([Q]); [math.sqrt], [math.atan] and the arithmetic
      around them in [get_pitch_and_roll] are the real-valued functions. *)

From Stdlib Require Import ZArith List Bool Lia QArith Qreals Reals Lra.
Import ListNotations.
Open Scope Z_scope.

(** ** Exceptions and outcomes *)

(** [TransportError] stands for whatever the transport raises on a failed
    transaction; [DomainError] is named by the specification only, no path of
    the driver raises it. *)
Inductive exn : Type :=
| ValueError
| IndexError
| ZeroDivisionError
| TransportError
| DomainError.

Inductive result (A : Type) : Type :=
| Ok (a : A)
| Raise (e : exn).

Arguments Ok {A} a.
Arguments Raise {A} e.

(** ** The transport: [import i2c] and the builtin [sleep] *)

Module i2c.

Inductive event : Type :=
| Start (i2c_name address clock : Z)
| Stop
| WriteRead (register : Z) (n : nat)
| WriteBytes (register value : Z)
| Sleep (ms : Z).

Record I2C : Type := mkI2C {
  regs : Z -> Z;          (* the device's register file *)
  trace : list event;     (* completed transactions and waits, oldest first *)
  faults : list bool      (* [true]: the coming transaction is not acknowledged *)
}.

Definition emit (e : event) (p : I2C) : I2C :=
  mkI2C (regs p) (trace p ++ [e]) (faults p).

(** One transaction is attempted: the head of the schedule is used up. *)
Definition attempt (p : I2C) : bool * I2C :=
  (hd false (faults p), mkI2C (regs p) (trace p) (tl (faults p))).

Definition store (register value : Z) (f : Z -> Z) : Z -> Z :=
  fun r => if r =? register then value else f r.

Definition start (i2c_name address clock : Z) (p : I2C) : I2C :=
  emit (Start i2c_name address clock) p.

Definition stop (p : I2C) : I2C := emit Stop p.

(** The [n] bytes held from [register] on. *)
Definition peek (register : Z) (n : nat) (p : I2C) : list Z :=
  map (fun k => regs p (register + Z.of_nat k)) (seq 0 n).

(** [port.write_read(register, n)]: [n] bytes from [register] on. *)
Definition write_read (register : Z) (n : nat) (p : I2C) : result (list Z) * I2C :=
  let (nack, p) := attempt p in
  if nack then (Raise TransportError, p)
  else (Ok (peek register n p), emit (WriteRead register n) p).

(** [port.write_bytes(register, value)]. *)
Definition write_bytes (register value : Z) (p : I2C) : result unit * I2C :=
  let (nack, p) := attempt p in
  if nack then (Raise TransportError, p)
  else (Ok tt,
        emit (WriteBytes register value)
             (mkI2C (store register value (regs p)) (trace p) (faults p))).

(** No coming transaction fails. *)
Definition quiet (p : I2C) : Prop := Forall (fun b => b = false) (faults p).

(** The register writes of a time line, oldest first. *)
Fixpoint writes (t : list event) : list (Z * Z) :=
  match t with
  | [] => []
  | WriteBytes r v :: t => (r, v) :: writes t
  | _ :: t => writes t
  end.

(** The byte of the last write to [register], if any. *)
Definition last_write (register : Z) (t : list event) : option Z :=
  match filter (fun w => fst w =? register) (rev (writes t)) with
  | [] => None
  | w :: _ => Some (snd w)
  end.

End i2c.

(** ** class MyMPU *)

Definition REG_CONFIG : Z := 0x1A.
Definition PWR_MGMT_1 : Z := 0x6B.
Definition PWR_MGMT_2 : Z := 0x6C.
Definition SIGNAL_PATH_RESET : Z := 0x68.
Definition ACCEL_CONFIG : Z := 0x1C.
Definition ACCEL_FIRST_REGISTER : Z := 0x3B.
Definition ACCEL_XOUT_H : Z := 0x3B.

Definition ACCEL_SCALE : list Q := [16834%Q; 8192%Q; 4096%Q; 2048%Q].

Record MyMPU : Type := mkMyMPU {
  _accel_full_range : Z;
  port : i2c.I2C
}.

Definition M (A : Type) : Type := MyMPU -> result A * MyMPU.

Definition ret {A} (a : A) : M A := fun self => (Ok a, self).

Definition raise {A} (e : exn) : M A := fun self => (Raise e, self).

Definition bind {A B} (c : M A) (k : A -> M B) : M B :=
  fun self =>
    match c self with
    | (Ok a, self') => k a self'
    | (Raise e, self') => (Raise e, self')
    end.

Declare Scope mpu_scope.
Delimit Scope mpu_scope with mpu.
Notation "x <- c ;; k" := (bind c (fun x => k))
  (at level 61, c at next level, right associativity) : mpu_scope.
Notation "c ;; k" := (bind c (fun _ => k))
  (at level 61, right associativity) : mpu_scope.
Open Scope mpu_scope.

(** Calls on [self.port] and the builtin [sleep]. *)
Definition on_port {A} (op : i2c.I2C -> result A * i2c.I2C) : M A :=
  fun self =>
    let (r, p) := op (port self) in (r, mkMyMPU (_accel_full_range self) p).

Definition sleep (ms : Z) : M unit :=
  on_port (fun p => (Ok tt, i2c.emit (i2c.Sleep ms) p)).

(** [mode not in (t0, t1, ...)] *)
Definition not_in (mode : Z) (t : list Z) : bool :=
  negb (existsb (Z.eqb mode) t).

(** [t[i]] on a tuple, with Python's negative indices. *)
Definition getitem {A} (t : list A) (i : Z) : result A :=
  let len := Z.of_nat (length t) in
  let j := if i <? 0 then len + i else i in
  if (j <? 0) || (len <=? j) then Raise IndexError
  else match nth_error t (Z.to_nat j) with
       | Some a => Ok a
       | None => Raise IndexError
       end.

Definition lift {A} (r : result A) : M A := fun self => (r, self).

Definition close : M unit :=
  on_port (fun p => (Ok tt, i2c.stop p)).

Definition _twos_comp_to_int (val bits : Z) : Z :=
  if negb (Z.land val (Z.shiftl 1 (bits - 1)) =? 0)
  then val - Z.shiftl 1 bits
  else val.

Definition _reset_register (register : Z) : M unit :=
  on_port (i2c.write_bytes register 0x00).

(** [a << n]: a negative shift count raises [ValueError]; integers are
    unbounded, a count too large for the memory of the machine is left out. *)
Definition lshift (a n : Z) : result Z :=
  if n <? 0 then Raise ValueError else Ok (Z.shiftl a n).

Definition _write_to_register (register mask value starting_bit : Z) : M unit :=
  bytes <- on_port (i2c.write_read register 1) ;;
  value_read <- lift (getitem bytes 0) ;;
  let value_read := Z.land value_read mask in
  shifted <- lift (lshift value starting_bit) ;;
  let value_read := Z.lor value_read shifted in
  on_port (i2c.write_bytes register value).

Definition set_accelerometer_scale (mode : Z) : M unit :=
  if not_in mode [0; 1; 2; 3] then raise ValueError
  else
    _write_to_register ACCEL_CONFIG 0xE7 (* 0b11100111 *) mode 3 ;;
    fun self => (Ok tt, mkMyMPU mode (port self)).

Definition get_accelerometer_values : M (Q * Q * Q) :=
  values_read <- on_port (i2c.write_read ACCEL_FIRST_REGISTER 6) ;;
  v0 <- lift (getitem values_read 0) ;;
  v1 <- lift (getitem values_read 1) ;;
  let x := Z.lor (Z.shiftl v0 8) v1 in
  v2 <- lift (getitem values_read 2) ;;
  v3 <- lift (getitem values_read 3) ;;
  let y := Z.lor (Z.shiftl v2 8) v3 in
  v4 <- lift (getitem values_read 4) ;;
  v5 <- lift (getitem values_read 5) ;;
  let z := Z.lor (Z.shiftl v4 8) v5 in
  let x := _twos_comp_to_int x 16 in
  let y := _twos_comp_to_int y 16 in
  let z := _twos_comp_to_int z 16 in
  fun self =>
    (accel_scale <- lift (getitem ACCEL_SCALE (_accel_full_range self)) ;;
     let x := (inject_Z x / accel_scale)%Q in
     let y := (inject_Z y / accel_scale)%Q in
     let z := (inject_Z z / accel_scale)%Q in
     ret (x, y, z)) self.

(** [a / b] on floats. *)
Definition truediv (a b : R) : result R :=
  if Req_dec_T b 0 then Raise ZeroDivisionError else Ok (a / b)%R.

(** [int(r)]: truncation towards zero. *)
Definition int (r : R) : Z :=
  if Rle_dec 0 r then Int_part r else - Int_part (- r).

Definition get_pitch_and_roll : M (Z * Z) :=
  acc <- get_accelerometer_values ;;
  let '(x, y, z) := acc in
  let x := Q2R x in
  let y := Q2R y in
  let z := Q2R z in
  q <- lift (truediv x (sqrt (y * y + z * z))) ;;
  let pitch := int (atan q * 180 / 3.14) in
  q <- lift (truediv y (sqrt (x * x + z * z))) ;;
  let roll := int (atan q * 180 / 3.14) in
  ret (pitch, roll).

Definition set_digital_low_pass_filter (mode : Z) : M unit :=
  if not_in mode [0; 1; 2; 3; 4; 5; 6; 7] then raise ValueError
  else _write_to_register REG_CONFIG 0xF8 (* 0b11111000 *) mode 0.

Definition set_external_sync (mode : Z) : M unit :=
  if not_in mode [0; 1; 2; 3; 4; 5; 6; 7] then raise ValueError
  else _write_to_register REG_CONFIG 0xC7 (* 0b11000111 *) mode 3.

Definition set_clock_source (mode : Z) : M unit :=
  if not_in mode [0; 1; 2; 3; 4; 5; 6; 7] then raise ValueError
  else _write_to_register PWR_MGMT_1 0xF8 (* 0b11111000 *) mode 0.

Definition set_sleep (mode : Z) : M unit :=
  if not_in mode [0; 1] then raise ValueError
  else _write_to_register PWR_MGMT_1 0xBF (* 0b10111111 *) mode 6.

Definition reset_device : M unit :=
  let mode := 1 in
  _write_to_register PWR_MGMT_1 0x7F (* 0b01111111 *) mode 7 ;;
  sleep 100 ;;
  _write_to_register SIGNAL_PATH_RESET 0xF8 (* 0b11111000 *) 7 0 ;;
  sleep 100.

Definition _set_temp_on_off (mode : Z) : M unit :=
  if not_in mode [0; 1] then raise ValueError
  else _write_to_register PWR_MGMT_1 0xF7 (* 0b11110111 *) mode 3.

Definition set_temp_on : M unit := _set_temp_on_off 0.

Definition set_temp_off : M unit := _set_temp_on_off 1.

Definition set_cycle (mode : Z) : M unit :=
  if not_in mode [0; 1] then raise ValueError
  else _write_to_register PWR_MGMT_1 0xDF (* 0b11011111 *) mode 5.

Definition set_gyro_axis_on_off (mode : Z) : M unit :=
  if not_in mode [0; 1; 2; 3; 4; 5; 6; 7] then raise ValueError
  else _write_to_register PWR_MGMT_2 0xF8 (* 0b11111000 *) mode 0.

Definition _set_low_power_wake_up_frequency (mode : Z) : M unit :=
  if not_in mode [0; 1; 2; 3] then raise ValueError
  else _write_to_register PWR_MGMT_2 0x3F (* 0b00111111 *) mode 6.

Definition _set_low_power_accelerometer_only_off_on (mode frequency : Z) : M unit :=
  if not_in mode [0; 1] then raise ValueError
  else if not_in frequency [0; 1; 2; 3] then raise ValueError
  else if mode =? 0 then
    set_cycle 0 ;;
    set_sleep 0 ;;
    set_temp_on ;;
    set_gyro_axis_on_off 0
  else
    set_cycle 1 ;;
    set_sleep 0 ;;
    set_temp_off ;;
    set_gyro_axis_on_off 7 ;;
    _set_low_power_wake_up_frequency frequency.

Definition set_low_power_accelerometer_only_off : M unit :=
  _set_low_power_accelerometer_only_off_on 0 0.

(** A keyword argument left out is [None]. *)
Definition default (d : Z) (arg : option Z) : Z :=
  match arg with Some v => v | None => d end.

Definition set_low_power_accelerometer_only_on (frequency : option Z) : M unit :=
  let frequency := default 3 frequency in
  _set_low_power_accelerometer_only_off_on 1 frequency.

Definition configure_sensor_to_default : M unit :=
  set_clock_source 1 ;;
  set_accelerometer_scale 1 ;;
  set_external_sync 0.

(** [MyMPU(i2c_name, address)] on the bus [bus]: the new object, or the
    exception that left no object behind, and the bus afterwards. *)
Definition __init__ (bus : i2c.I2C) (i2c_name : Z) (address : option Z)
  : result MyMPU * i2c.I2C :=
  let address := default 0x68 address in
  let _accel_full_range := 0 in
  if negb (address =? 0x68) && negb (address =? 0x69) then (Raise ValueError, bus)
  else
    let self := mkMyMPU _accel_full_range (i2c.start i2c_name address 400000 bus) in
    match configure_sensor_to_default self with
    | (Ok _, self) => (Ok self, port self)
    | (Raise e, self) => (Raise e, port self)
    end.

(** ** main.py *)

Module Manager.

Definition __init__ (bus : i2c.I2C) (i2c_name : Z) : result MyMPU * i2c.I2C :=
  match __init__ bus i2c_name None with
  | (Ok accelerometer, _) =>
      match set_low_power_accelerometer_only_on None accelerometer with
      | (Ok _, accelerometer) => (Ok accelerometer, port accelerometer)
      | (Raise e, accelerometer) => (Raise e, port accelerometer)
      end
  | (Raise e, bus) => (Raise e, bus)
  end.

End Manager.

(** ** Vocabulary of the specification *)

(** The 16-bit unsigned encoding of a signed value, and its two bytes, high
    byte first. *)
Definition encode16 (n : Z) : Z := n mod 2 ^ 16.

Definition be16 (n : Z) : list Z := [encode16 n / 256; encode16 n mod 256].

(** The byte the read-modify-write contract puts on the bus: the prior byte
    with the field cleared, and the value shifted into place.  [mask] is the
    argument of [_write_to_register]: it has a 0 on every bit of the field. *)
Definition merged_byte (prior mask value starting_bit : Z) : Z :=
  Z.lor (Z.land prior mask) (Z.shiftl value starting_bit).

(** Bits [lo .. lo + width - 1] of a byte. *)
Definition field (lo width byte : Z) : Z :=
  Z.land (Z.shiftr byte lo) (Z.ones width).

(** The setters and their domains (table of section 4.2). *)
Inductive setter : Type :=
| clock_source
| accelerometer_scale
| digital_low_pass_filter
| external_sync
| sleep_mode
| cycle
| temp_on_off
| gyro_axis_on_off
| low_power_wake_up_frequency.

Definition domain (s : setter) : Z * Z :=
  match s with
  | clock_source => (0, 7)
  | accelerometer_scale => (0, 3)
  | digital_low_pass_filter => (0, 7)
  | external_sync => (0, 7)
  | sleep_mode => (0, 1)
  | cycle => (0, 1)
  | temp_on_off => (0, 1)
  | gyro_axis_on_off => (0, 7)
  | low_power_wake_up_frequency => (0, 3)
  end.

Definition in_domain (s : setter) (mode : Z) : Prop :=
  fst (domain s) <= mode <= snd (domain s).

Definition call (s : setter) : Z -> M unit :=
  match s with
  | clock_source => set_clock_source
  | accelerometer_scale => set_accelerometer_scale
  | digital_low_pass_filter => set_digital_low_pass_filter
  | external_sync => set_external_sync
  | sleep_mode => set_sleep
  | cycle => set_cycle
  | temp_on_off => _set_temp_on_off
  | gyro_axis_on_off => set_gyro_axis_on_off
  | low_power_wake_up_frequency => _set_low_power_wake_up_frequency
  end.

(** The register each setter writes (same table). *)
Definition register_of (s : setter) : Z :=
  match s with
  | clock_source | sleep_mode | cycle | temp_on_off => PWR_MGMT_1
  | accelerometer_scale => ACCEL_CONFIG
  | digital_low_pass_filter | external_sync => REG_CONFIG
  | gyro_axis_on_off | low_power_wake_up_frequency => PWR_MGMT_2
  end.

(** Wake-up rates in Hz of the low-power cycle, as tabulated in the comment of
    [_set_low_power_wake_up_frequency]. *)
Definition wake_up_frequency_hz (mode : Z) : Q :=
  match mode with
  | 0 => (125 # 100)%Q
  | 1 => 5%Q
  | 2 => 20%Q
  | 3 => 40%Q
  | _ => 0%Q
  end.

(** The object a successful transaction pair of [_write_to_register] leaves. *)
Definition written (register value : Z) (self : MyMPU) : MyMPU :=
  let p := port self in
  mkMyMPU (_accel_full_range self)
    (i2c.mkI2C (i2c.store register value (i2c.regs p))
               (i2c.trace p ++ [i2c.WriteRead register 1; i2c.WriteBytes register value])
               (tl (tl (i2c.faults p)))).

(** The object a successful [write_read] leaves. *)
Definition read_done (register : Z) (n : nat) (self : MyMPU) : MyMPU :=
  let p := port self in
  mkMyMPU (_accel_full_range self)
    (i2c.mkI2C (i2c.regs p) (i2c.trace p ++ [i2c.WriteRead register n])
               (tl (i2c.faults p))).

(** The decoded raw value of an axis from its two bytes. *)
Definition raw_axis (high low : Z) : Z :=
  _twos_comp_to_int (Z.lor (Z.shiftl high 8) low) 16.

(** The object a [sleep] leaves. *)
Definition slept (ms : Z) (self : MyMPU) : MyMPU :=
  mkMyMPU (_accel_full_range self) (i2c.emit (i2c.Sleep ms) (port self)).

(** A device whose registers from [ACCEL_FIRST_REGISTER] on hold [bytes], every
    other register [other]; nothing has happened on the bus yet. *)
Definition device (bytes : list Z) (other : Z) : i2c.I2C :=
  i2c.mkI2C
    (fun r =>
       if (ACCEL_FIRST_REGISTER <=? r)
          && (r <? ACCEL_FIRST_REGISTER + Z.of_nat (length bytes))
       then nth (Z.to_nat (r - ACCEL_FIRST_REGISTER)) bytes other
       else other)
    [] [].

(** Three drivers at range 1 (the default), nothing on the bus yet: they read
    the raw samples (8192, 0, 0), (32767, 0, 1) and (0, 0, 8192), that is the
    Physical Samples (1.0, 0, 0), (32767/8192, 0, 1/8192) and (0, 0, 1.0). *)
Definition along_x : MyMPU :=
  mkMyMPU 1 (device [0x20; 0x00; 0x00; 0x00; 0x00; 0x00] 0).

Definition steep : MyMPU :=
  mkMyMPU 1 (device [0x7F; 0xFF; 0x00; 0x00; 0x00; 0x01] 0).

Definition level : MyMPU :=
  mkMyMPU 1 (device [0x00; 0x00; 0x00; 0x00; 0x20; 0x00] 0).

(** A driver at range 0 in front of the sample bytes of the scenario of
    section 8, and the same after [set_accelerometer_scale 1] went through. *)
Definition half_g_before : MyMPU :=
  mkMyMPU 0 (device [0x10; 0x00; 0x00; 0x00; 0x20; 0x00] 0).

Definition half_g : MyMPU :=
  mkMyMPU 1 (port (written ACCEL_CONFIG 1 half_g_before)).

(** ** The rest of the interface *)

(** Full scale in g of each range, as tabulated in the comment of
    [set_accelerometer_scale]. *)
Definition full_scale_g (mode : Z) : Q :=
  match mode with
  | 0 => 2%Q
  | 1 => 4%Q
  | 2 => 8%Q
  | 3 => 16%Q
  | _ => 0%Q
  end.

(** The cached range indexes [ACCEL_SCALE]. *)
Definition range_ok (self : MyMPU) : Prop := 0 <= _accel_full_range self <= 3.

(** A method that leaves the cached range as it found it, and one that keeps
    it an index of [ACCEL_SCALE]. *)
Definition keeps_cache {A} (c : M A) : Prop :=
  forall self, _accel_full_range (snd (c self)) = _accel_full_range self.

Definition keeps_range_ok {A} (c : M A) : Prop :=
  forall self, range_ok self -> range_ok (snd (c self)).

(** A method follows a plan when, whatever the bus refuses, what it adds to
    the time line is a prefix of the plan: the whole plan when it returns, a
    proper prefix when it raises, and then it raises [TransportError]. *)
Definition follows {A} (c : M A) (plan : list i2c.event) : Prop :=
  forall self,
  exists k,
    i2c.trace (port (snd (c self))) = i2c.trace (port self) ++ firstn k plan /\
    match fst (c self) with
    | Ok _ => k = length plan
    | Raise e => e = TransportError /\ (k < length plan)%nat
    end.

(** The steps of a plan done under a schedule of refusals: the steps are
    taken in order, each transaction uses up the head of the schedule, and the
    first transaction that is refused ends the run; a wait uses up nothing. *)
Definition is_transaction (e : i2c.event) : bool :=
  match e with
  | i2c.WriteRead _ _ | i2c.WriteBytes _ _ => true
  | _ => false
  end.

Fixpoint steps_done (plan : list i2c.event) (faults : list bool) : nat :=
  match plan with
  | [] => 0%nat
  | e :: plan =>
      if is_transaction e
      then if hd false faults then 0%nat else S (steps_done plan (tl faults))
      else S (steps_done plan faults)
  end.

(** The schedule left after that run: one entry used per transaction tried,
    the refused one included. *)
Fixpoint faults_left (plan : list i2c.event) (faults : list bool) : list bool :=
  match plan with
  | [] => faults
  | e :: plan =>
      if is_transaction e
      then if hd false faults then tl faults else faults_left plan (tl faults)
      else faults_left plan faults
  end.

(** The register file after the writes among some steps. *)
Definition apply_writes (steps : list i2c.event) (regs : Z -> Z) : Z -> Z :=
  fold_left
    (fun regs e =>
       match e with
       | i2c.WriteBytes register value => i2c.store register value regs
       | _ => regs
       end)
    steps regs.

(** A method runs a plan when, under every schedule of refusals, it does the
    steps of the plan in order up to the first refused transaction and stops
    there: the time line gains exactly the steps done, the registers hold
    exactly the writes among them, each transaction tried used one entry of
    the schedule (none is tried twice), and the method returns when the whole
    plan is done and raises [TransportError] otherwise. *)
Definition runs {A} (c : M A) (plan : list i2c.event) : Prop :=
  forall self,
    i2c.trace (port (snd (c self)))
    = i2c.trace (port self)
      ++ firstn (steps_done plan (i2c.faults (port self))) plan /\
    i2c.faults (port (snd (c self))) = faults_left plan (i2c.faults (port self)) /\
    i2c.regs (port (snd (c self)))
    = apply_writes (firstn (steps_done plan (i2c.faults (port self))) plan)
        (i2c.regs (port self)) /\
    match fst (c self) with
    | Ok _ => steps_done plan (i2c.faults (port self)) = length plan
    | Raise e =>
        e = TransportError /\
        (steps_done plan (i2c.faults (port self)) < length plan)%nat
    end.

(** The methods of [MyMPU], and the object each call leaves, whether it
    returned or raised. *)
Inductive method : Type :=
| do_close
| do_configure_sensor_to_default
| do__reset_register (register : Z)
| do__write_to_register (register mask value starting_bit : Z)
| do_setter (s : setter) (mode : Z)
| do_get_accelerometer_values
| do_get_pitch_and_roll
| do_reset_device
| do_set_temp_on
| do_set_temp_off
| do_set_low_power_accelerometer_only_off
| do_set_low_power_accelerometer_only_on (frequency : option Z)
| do__set_low_power_accelerometer_only_off_on (mode frequency : Z).

Definition invoke (m : method) (self : MyMPU) : MyMPU :=
  match m with
  | do_close => snd (close self)
  | do_configure_sensor_to_default => snd (configure_sensor_to_default self)
  | do__reset_register register => snd (_reset_register register self)
  | do__write_to_register register mask value starting_bit =>
      snd (_write_to_register register mask value starting_bit self)
  | do_setter s mode => snd (call s mode self)
  | do_get_accelerometer_values => snd (get_accelerometer_values self)
  | do_get_pitch_and_roll => snd (get_pitch_and_roll self)
  | do_reset_device => snd (reset_device self)
  | do_set_temp_on => snd (set_temp_on self)
  | do_set_temp_off => snd (set_temp_off self)
  | do_set_low_power_accelerometer_only_off =>
      snd (set_low_power_accelerometer_only_off self)
  | do_set_low_power_accelerometer_only_on frequency =>
      snd (set_low_power_accelerometer_only_on frequency self)
  | do__set_low_power_accelerometer_only_off_on mode frequency =>
      snd (_set_low_power_accelerometer_only_off_on mode frequency self)
  end.

Definition session (calls : list method) (self : MyMPU) : MyMPU :=
  fold_left (fun self m => invoke m self) calls self.

(** The driver [MyMPU(2)] gives on an acknowledging bus whose registers all
    hold 0x40. *)
Definition constructed : MyMPU :=
  mkMyMPU 1
    (port (written REG_CONFIG 0
             (written ACCEL_CONFIG 1
                (written PWR_MGMT_1 1
                   (mkMyMPU 0 (i2c.start 2 0x68 400000 (device [] 0x40))))))).

(** [Manager.start_blocking] of main.py.  The manager holds the driver; what
    [print] sends to the serial console is kept as the list of the printed
    (pitch, roll) pairs. *)
Module main.

Record Manager : Type := mkManager {
  accelerometer : MyMPU;
  console : list (Z * Z)
}.

(** The first [turns] turns of the [while True] loop: [Some e] when the
    exception [e] left the loop, [None] when the loop is still running. *)
Fixpoint start_blocking (turns : nat) (self : Manager) : option exn * Manager :=
  match turns with
  | O => (None, self)
  | S turns =>
      match get_pitch_and_roll (accelerometer self) with
      | (Raise e, accelerometer) => (Some e, mkManager accelerometer (console self))
      | (Ok (pitch, roll), accelerometer) =>
          let console := console self ++ [(pitch, roll)] in
          match sleep 500 accelerometer with
          | (Raise e, accelerometer) => (Some e, mkManager accelerometer console)
          | (Ok _, accelerometer) =>
              start_blocking turns (mkManager accelerometer console)
          end
      end
  end.

End main.

(** * Properties *)

(** ** Tuple membership *)

Ltac decide_not_in :=
  unfold not_in; cbn [existsb];
  repeat match goal with
         | |- context [Z.eqb ?a ?b] => destruct (Z.eqb_spec a b)
         end;
  cbn [orb negb]; solve [reflexivity | lia | intuition lia].

Lemma not_in_0_1 (mode : Z) :
  not_in mode [0; 1] = negb ((0 <=? mode) && (mode <=? 1)).
Proof.
  destruct (Z.leb_spec 0 mode), (Z.leb_spec mode 1); cbn [andb negb]; decide_not_in.
Qed.

Lemma not_in_0_3 (mode : Z) :
  not_in mode [0; 1; 2; 3] = negb ((0 <=? mode) && (mode <=? 3)).
Proof.
  destruct (Z.leb_spec 0 mode), (Z.leb_spec mode 3); cbn [andb negb]; decide_not_in.
Qed.

Lemma not_in_0_7 (mode : Z) :
  not_in mode [0; 1; 2; 3; 4; 5; 6; 7] = negb ((0 <=? mode) && (mode <=? 7)).
Proof.
  destruct (Z.leb_spec 0 mode), (Z.leb_spec mode 7); cbn [andb negb]; decide_not_in.
Qed.

Lemma between_true (lo hi mode : Z) :
  lo <= mode <= hi -> negb ((lo <=? mode) && (mode <=? hi)) = false.
Proof.
  intros [H1 H2]. apply Z.leb_le in H1, H2. now rewrite H1, H2.
Qed.

Lemma between_false (lo hi mode : Z) :
  ~ lo <= mode <= hi -> negb ((lo <=? mode) && (mode <=? hi)) = true.
Proof.
  intros H. destruct (Z.leb_spec lo mode), (Z.leb_spec mode hi); cbn; trivial; lia.
Qed.

(** ** The transport on a quiet bus *)

Section QuietBus.

Variable p : i2c.I2C.
Hypothesis quiet_p : i2c.quiet p.

Lemma quiet_hd : hd false (i2c.faults p) = false.
Proof.
  unfold i2c.quiet in quiet_p. destruct (i2c.faults p) as [|b fs]; cbn; trivial.
  now inversion quiet_p.
Qed.

Lemma quiet_tl : Forall (fun b => b = false) (tl (i2c.faults p)).
Proof.
  unfold i2c.quiet in quiet_p. destruct (i2c.faults p) as [|b fs]; cbn; trivial.
  now inversion quiet_p.
Qed.

Lemma write_read_quiet (register : Z) (n : nat) :
  i2c.write_read register n p =
  (Ok (i2c.peek register n p),
   i2c.mkI2C (i2c.regs p) (i2c.trace p ++ [i2c.WriteRead register n]) (tl (i2c.faults p))).
Proof.
  unfold i2c.write_read, i2c.attempt. now rewrite quiet_hd.
Qed.

Lemma write_bytes_quiet (register value : Z) :
  i2c.write_bytes register value p =
  (Ok tt,
   i2c.mkI2C (i2c.store register value (i2c.regs p))
             (i2c.trace p ++ [i2c.WriteBytes register value]) (tl (i2c.faults p))).
Proof.
  unfold i2c.write_bytes, i2c.attempt. now rewrite quiet_hd.
Qed.

End QuietBus.

Lemma writes_app (t u : list i2c.event) :
  i2c.writes (t ++ u) = i2c.writes t ++ i2c.writes u.
Proof.
  induction t as [|e t IH]; cbn; trivial.
  destruct e; cbn; now rewrite ?IH.
Qed.

Lemma last_write_snoc (register value : Z) (t : list i2c.event) :
  i2c.last_write register (t ++ [i2c.WriteRead register 1; i2c.WriteBytes register value])
  = Some value.
Proof.
  unfold i2c.last_write. rewrite writes_app. cbn [i2c.writes].
  rewrite rev_app_distr. cbn. now rewrite Z.eqb_refl.
Qed.

(** ** [_write_to_register] *)

Lemma written_quiet (register value : Z) (self : MyMPU) :
  i2c.quiet (port self) -> i2c.quiet (port (written register value self)).
Proof.
  intros H. unfold i2c.quiet, written; cbn.
  pose proof (quiet_tl _ H) as H1.
  destruct (i2c.faults (port self)) as [|b [|b' fs]]; cbn in *; trivial.
  now inversion H1.
Qed.

Lemma slept_quiet (ms : Z) (self : MyMPU) :
  i2c.quiet (port self) -> i2c.quiet (port (slept ms self)).
Proof. intros H; exact H. Qed.

Lemma lshift_ok (a n : Z) : 0 <= n -> lshift a n = Ok (Z.shiftl a n).
Proof.
  intros Hn. unfold lshift. destruct (Z.ltb_spec n 0); [lia | reflexivity].
Qed.

Lemma _write_to_register_quiet (register mask value starting_bit : Z) (self : MyMPU) :
  0 <= starting_bit ->
  i2c.quiet (port self) ->
  _write_to_register register mask value starting_bit self
  = (Ok tt, written register value self).
Proof.
  intros Hs H. unfold _write_to_register, bind, on_port, lift.
  rewrite (write_read_quiet _ H), (lshift_ok _ _ Hs). cbn.
  unfold i2c.write_bytes, i2c.attempt; cbn.
  pose proof (quiet_tl _ H) as H1.
  unfold written.
  destruct (i2c.faults (port self)) as [|b [|b' fs]]; cbn in *;
    try (inversion H1; subst; cbn);
    unfold i2c.emit; cbn; now rewrite <- app_assoc.
Qed.

(** Whatever happens on the bus, [_write_to_register] leaves the cached range
    alone. *)
Lemma on_port_range {A} (op : i2c.I2C -> result A * i2c.I2C) (self : MyMPU) :
  _accel_full_range (snd (on_port op self)) = _accel_full_range self.
Proof. unfold on_port. now destruct (op (port self)). Qed.

Lemma _write_to_register_range (register mask value starting_bit : Z) (self : MyMPU) :
  _accel_full_range (snd (_write_to_register register mask value starting_bit self))
  = _accel_full_range self.
Proof.
  unfold _write_to_register, bind.
  pose proof (on_port_range (i2c.write_read register 1) self) as H1.
  destruct (on_port (i2c.write_read register 1) self) as [[bytes|e] s1];
    cbn [snd] in *; trivial.
  unfold lift. destruct (getitem bytes 0) as [b|e]; cbn [snd]; trivial.
  destruct (lshift value starting_bit) as [shifted|e]; cbn [snd]; trivial.
  now rewrite on_port_range.
Qed.

Lemma sleep_eq (ms : Z) (self : MyMPU) : sleep ms self = (Ok tt, slept ms self).
Proof. reflexivity. Qed.

(** ** Bits *)

Lemma land_pow2 (v k : Z) :
  0 <= k -> Z.land v (2 ^ k) = if Z.testbit v k then 2 ^ k else 0.
Proof.
  intros Hk. apply Z.bits_inj'. intros n Hn.
  rewrite Z.land_spec, Z.pow2_bits_eqb by lia.
  destruct (Z.eqb_spec k n) as [->|Hne].
  - destruct (Z.testbit v n); cbn.
    + now rewrite Z.pow2_bits_eqb, Z.eqb_refl by lia.
    + now rewrite Z.bits_0.
  - rewrite andb_false_r. destruct (Z.testbit v k).
    + rewrite Z.pow2_bits_eqb by lia. symmetry. now apply Z.eqb_neq.
    + now rewrite Z.bits_0.
Qed.

Lemma _twos_comp_to_int_testbit (val bits : Z) :
  0 < bits ->
  _twos_comp_to_int val bits
  = if Z.testbit val (bits - 1) then val - 2 ^ bits else val.
Proof.
  intros Hb. unfold _twos_comp_to_int.
  rewrite !Z.shiftl_1_l, land_pow2 by lia.
  destruct (Z.testbit val (bits - 1)); cbn; trivial.
  assert (0 < 2 ^ (bits - 1)) by (apply Z.pow_pos_nonneg; lia).
  destruct (Z.eqb_spec (2 ^ (bits - 1)) 0); cbn; trivial; lia.
Qed.

Lemma testbit_15 (v : Z) :
  0 <= v < 2 ^ 16 -> Z.testbit v 15 = (2 ^ 15 <=? v).
Proof.
  intros Hv. change (2 ^ 16) with 65536 in Hv. change (2 ^ 15) with 32768.
  destruct (Z.leb_spec 32768 v) as [H|H].
  - apply Z.testbit_true; [lia|]. change (2 ^ 15) with 32768.
    assert (v / 32768 = 1) as ->
      by (symmetry; apply Z.div_unique with (v - 32768); lia).
    reflexivity.
  - apply Z.bits_above_log2; [lia|].
    destruct (Z.eq_dec v 0) as [->|Hz]; [cbn; lia|].
    apply Z.log2_lt_pow2; [lia|]. change (2 ^ 15) with 32768. lia.
Qed.

Lemma encode16_range (n : Z) : 0 <= encode16 n < 2 ^ 16.
Proof. unfold encode16. apply Z.mod_pos_bound. reflexivity. Qed.

Lemma decode_encode16 (n : Z) :
  -32768 <= n <= 32767 -> _twos_comp_to_int (encode16 n) 16 = n.
Proof.
  intros Hn. rewrite _twos_comp_to_int_testbit by lia.
  change (16 - 1) with 15. rewrite testbit_15 by apply encode16_range.
  unfold encode16. change (2 ^ 16) with 65536. change (2 ^ 15) with 32768.
  destruct (Z_lt_le_dec n 0) as [Hneg|Hpos].
  - assert (n mod 65536 = n + 65536) as ->
      by (symmetry; apply Z.mod_unique with (-1); lia).
    destruct (Z.leb_spec 32768 (n + 65536)); lia.
  - rewrite Z.mod_small by lia.
    destruct (Z.leb_spec 32768 n); lia.
Qed.

(** High byte shifted, or-ed with the low byte, is the 16-bit value again. *)
Lemma lor_shiftl_8 (v : Z) : Z.lor (Z.shiftl (v / 256) 8) (v mod 256) = v.
Proof.
  apply Z.bits_inj'. intros n Hn.
  rewrite Z.lor_spec.
  change 256 with (2 ^ 8).
  destruct (Z_lt_le_dec n 8) as [Hlo|Hhi].
  - rewrite Z.shiftl_spec_low by lia.
    rewrite Z.mod_pow2_bits_low by lia. reflexivity.
  - rewrite Z.shiftl_spec by lia.
    rewrite Z.mod_pow2_bits_high by lia.
    rewrite <- Z.shiftr_div_pow2 by lia.
    rewrite Z.shiftr_spec by lia.
    rewrite orb_false_r. f_equal. lia.
Qed.

Lemma raw_axis_be16 (n : Z) :
  -32768 <= n <= 32767 ->
  _twos_comp_to_int (Z.lor (Z.shiftl (encode16 n / 256) 8) (encode16 n mod 256)) 16 = n.
Proof.
  intros Hn. rewrite lor_shiftl_8. now apply decode_encode16.
Qed.

(** C3.  Decoding the 16-bit unsigned encoding of a signed 16-bit value gives
    the value back, and the decoder subtracts 2^16 exactly when bit 15 of its
    input is set. *)
Theorem twos_comp_decode_inverts_encode (n v : Z) :
  -32768 <= n <= 32767 ->
  _twos_comp_to_int (encode16 n) 16 = n /\
  0 <= encode16 n < 2 ^ 16 /\
  _twos_comp_to_int v 16 = (if Z.testbit v 15 then v - 2 ^ 16 else v).
Proof.
  intros Hn. split; [now apply decode_encode16|].
  split; [apply encode16_range|].
  now rewrite _twos_comp_to_int_testbit.
Qed.

Lemma twos_comp_decode_inverts_encode_witness :
  -32768 <= -2 <= 32767 /\
  (_twos_comp_to_int (encode16 (-2)) 16 = -2 /\
   0 <= encode16 (-2) < 2 ^ 16 /\
   _twos_comp_to_int 0x7FFF 16 = (if Z.testbit 0x7FFF 15 then 0x7FFF - 2 ^ 16 else 0x7FFF)).
Proof.
  split; [lia | apply (twos_comp_decode_inverts_encode (-2) 0x7FFF); lia].
Defined.

(** ** Setters *)

(** What a setter leaves behind on a quiet bus: one read and one write on its
    register, and the cached range for [set_accelerometer_scale]. *)
Lemma call_in_domain (s : setter) (mode : Z) (self : MyMPU) :
  in_domain s mode ->
  i2c.quiet (port self) ->
  call s mode self
  = (Ok tt,
     match s with
     | accelerometer_scale =>
         mkMyMPU mode (port (written (register_of s) mode self))
     | _ => written (register_of s) mode self
     end).
Proof.
  intros Hd Hq. unfold in_domain in Hd.
  destruct s; cbn [domain fst snd] in Hd; cbn [call register_of];
    unfold set_clock_source, set_accelerometer_scale, set_digital_low_pass_filter,
      set_external_sync, set_sleep, set_cycle, _set_temp_on_off,
      set_gyro_axis_on_off, _set_low_power_wake_up_frequency;
    rewrite ?not_in_0_1, ?not_in_0_3, ?not_in_0_7, between_true by exact Hd;
    unfold bind; now rewrite _write_to_register_quiet by (first [assumption | lia]).
Qed.

Lemma call_out_of_domain (s : setter) (mode : Z) (self : MyMPU) :
  ~ in_domain s mode -> call s mode self = (Raise ValueError, self).
Proof.
  intros Hd. unfold in_domain in Hd.
  destruct s; cbn [domain fst snd] in Hd; cbn [call];
    unfold set_clock_source, set_accelerometer_scale, set_digital_low_pass_filter,
      set_external_sync, set_sleep, set_cycle, _set_temp_on_off,
      set_gyro_axis_on_off, _set_low_power_wake_up_frequency;
    rewrite ?not_in_0_1, ?not_in_0_3, ?not_in_0_7, between_false by exact Hd;
    reflexivity.
Qed.

(** C4.  A mode outside the domain of a setter, a mode or frequency outside
    the domains of the low-power switch, and an address other than 0x68 and
    0x69 at construction raise [ValueError]; the object, its bus included, is
    left as it was, and construction leaves the bus as it was: no session is
    opened. *)
Theorem invalid_argument_before_any_transaction
  (s : setter) (mode frequency address i2c_name : Z) (self : MyMPU) (bus : i2c.I2C) :
  (~ in_domain s mode -> call s mode self = (Raise ValueError, self)) /\
  (~ 0 <= mode <= 1 \/ ~ 0 <= frequency <= 3 ->
   _set_low_power_accelerometer_only_off_on mode frequency self
   = (Raise ValueError, self)) /\
  (~ 0 <= frequency <= 3 ->
   set_low_power_accelerometer_only_on (Some frequency) self
   = (Raise ValueError, self)) /\
  (address <> 0x68 -> address <> 0x69 ->
   __init__ bus i2c_name (Some address) = (Raise ValueError, bus)).
Proof.
  split; [apply call_out_of_domain|].
  split; [|split].
  - intros H. unfold _set_low_power_accelerometer_only_off_on.
    rewrite not_in_0_1, not_in_0_3.
    destruct (Z_le_dec 0 mode), (Z_le_dec mode 1);
      try (rewrite (between_false 0 1 mode) by lia; reflexivity).
    rewrite (between_true 0 1 mode) by lia.
    rewrite (between_false 0 3 frequency) by lia. reflexivity.
  - intros H. unfold set_low_power_accelerometer_only_on,
      _set_low_power_accelerometer_only_off_on, default.
    rewrite not_in_0_3, (between_false 0 3 frequency) by lia. reflexivity.
  - intros H1 H2. unfold __init__, default.
    destruct (Z.eqb_spec address 0x68); [contradiction|].
    destruct (Z.eqb_spec address 0x69); [contradiction|].
    reflexivity.
Qed.

Lemma invalid_argument_before_any_transaction_witness :
  (~ in_domain accelerometer_scale 4 /\
   call accelerometer_scale 4 (mkMyMPU 1 (device [] 0))
   = (Raise ValueError, mkMyMPU 1 (device [] 0))) /\
  ((~ 0 <= 4 <= 1 \/ ~ 0 <= 7 <= 3) /\
   _set_low_power_accelerometer_only_off_on 4 7 (mkMyMPU 1 (device [] 0))
   = (Raise ValueError, mkMyMPU 1 (device [] 0))) /\
  (~ 0 <= 7 <= 3 /\
   set_low_power_accelerometer_only_on (Some 7) (mkMyMPU 1 (device [] 0))
   = (Raise ValueError, mkMyMPU 1 (device [] 0))) /\
  ((0x6A <> 0x68 /\ 0x6A <> 0x69) /\
   __init__ (device [] 0) 2 (Some 0x6A) = (Raise ValueError, device [] 0)).
Proof.
  destruct (invalid_argument_before_any_transaction
              accelerometer_scale 4 7 0x6A 2 (mkMyMPU 1 (device [] 0)) (device [] 0))
    as (H1 & H2 & H3 & H4).
  assert (D : ~ in_domain accelerometer_scale 4) by (unfold in_domain; cbn; lia).
  assert (F : ~ 0 <= 7 <= 3) by lia.
  assert (A1 : 0x6A <> 0x68) by lia.
  assert (A2 : 0x6A <> 0x69) by lia.
  repeat split; auto.
Defined.

(** ** The read-modify-write primitive on the bus *)

Lemma field_small (lo width v : Z) :
  0 <= v < 2 ^ lo -> 0 <= lo -> field lo width v = 0.
Proof.
  intros Hv Hlo. unfold field.
  rewrite Z.shiftr_div_pow2 by lia. now rewrite Z.div_small.
Qed.

(** C1.  On a bus that acknowledges, [_write_to_register] with a starting bit
    that is not negative reads the register once and then writes [value]
    itself: the byte on the bus and in the register afterwards is [value],
    whatever the byte read before, the mask and the starting bit; it is the
    merged byte only where the two coincide.  With a negative starting bit the
    shift raises [ValueError] after the read, and nothing is written. *)
Theorem write_to_register_writes_value
  (register mask value starting_bit : Z) (self : MyMPU) :
  i2c.quiet (port self) ->
  (0 <= starting_bit ->
   exists self',
     _write_to_register register mask value starting_bit self = (Ok tt, self') /\
     i2c.trace (port self')
     = i2c.trace (port self) ++ [i2c.WriteRead register 1; i2c.WriteBytes register value] /\
     i2c.regs (port self') register = value /\
     (value <> merged_byte (i2c.regs (port self) register) mask value starting_bit ->
      i2c.regs (port self') register
      <> merged_byte (i2c.regs (port self) register) mask value starting_bit)) /\
  (starting_bit < 0 ->
   _write_to_register register mask value starting_bit self
   = (Raise ValueError, read_done register 1 self)).
Proof.
  intros Hq. split.
  - intros Hs. exists (written register value self).
    split; [now apply _write_to_register_quiet|].
    split; [reflexivity|].
    assert (E : i2c.regs (port (written register value self)) register = value)
      by (cbn; unfold i2c.store; now rewrite Z.eqb_refl).
    split; [exact E|]. now rewrite E.
  - intros Hs. unfold _write_to_register, bind, on_port, lift.
    rewrite (write_read_quiet _ Hq). cbn.
    unfold lshift. destruct (Z.ltb_spec starting_bit 0); [reflexivity | lia].
Qed.

Lemma write_to_register_writes_value_witness :
  (i2c.quiet (port (mkMyMPU 0 (device [] 0xE0))) /\ 0 <= 3) /\
  exists self',
    _write_to_register ACCEL_CONFIG 0xE7 1 3 (mkMyMPU 0 (device [] 0xE0)) = (Ok tt, self') /\
    i2c.trace (port self')
    = [] ++ [i2c.WriteRead ACCEL_CONFIG 1; i2c.WriteBytes ACCEL_CONFIG 1] /\
    i2c.regs (port self') ACCEL_CONFIG = 1 /\
    (1 <> merged_byte 0xE0 0xE7 1 3 ->
     i2c.regs (port self') ACCEL_CONFIG <> merged_byte 0xE0 0xE7 1 3).
Proof.
  assert (Hq : i2c.quiet (port (mkMyMPU 0 (device [] 0xE0)))) by constructor.
  split; [split; [exact Hq | lia]|].
  apply (proj1 (write_to_register_writes_value ACCEL_CONFIG 0xE7 1 3
                  (mkMyMPU 0 (device [] 0xE0)) Hq)).
  lia.
Defined.

(** At that input the contract asks for 0xE8 on the bus. *)
Lemma merged_byte_example : merged_byte 0xE0 0xE7 1 3 = 0xE8.
Proof. reflexivity. Qed.

(** ** Low-power switch *)

(** C7.  On a bus that acknowledges, switching the low-power mode on issues
    five reads each followed by a write, switching it off four, in the order
    of the setters: cycle, sleep, temperature, gyroscope axes, wake-up
    frequency.  The bytes written are the arguments of the setters: the write
    of the cycle setter carries 0x01, whose cycle bit 5 is clear, the write of
    the temperature setter 0x01, whose bit 3 is clear, and the write of the
    wake-up frequency carries the frequency in bits 0-1, with bits 6-7 clear. *)
Theorem low_power_bus_transactions (frequency : Z) (self : MyMPU) :
  0 <= frequency <= 3 ->
  i2c.quiet (port self) ->
  (exists self',
     set_low_power_accelerometer_only_on (Some frequency) self = (Ok tt, self') /\
     i2c.trace (port self')
     = i2c.trace (port self) ++
       [i2c.WriteRead PWR_MGMT_1 1; i2c.WriteBytes PWR_MGMT_1 1;
        i2c.WriteRead PWR_MGMT_1 1; i2c.WriteBytes PWR_MGMT_1 0;
        i2c.WriteRead PWR_MGMT_1 1; i2c.WriteBytes PWR_MGMT_1 1;
        i2c.WriteRead PWR_MGMT_2 1; i2c.WriteBytes PWR_MGMT_2 7;
        i2c.WriteRead PWR_MGMT_2 1; i2c.WriteBytes PWR_MGMT_2 frequency]) /\
  (exists self',
     set_low_power_accelerometer_only_off self = (Ok tt, self') /\
     i2c.trace (port self')
     = i2c.trace (port self) ++
       [i2c.WriteRead PWR_MGMT_1 1; i2c.WriteBytes PWR_MGMT_1 0;
        i2c.WriteRead PWR_MGMT_1 1; i2c.WriteBytes PWR_MGMT_1 0;
        i2c.WriteRead PWR_MGMT_1 1; i2c.WriteBytes PWR_MGMT_1 0;
        i2c.WriteRead PWR_MGMT_2 1; i2c.WriteBytes PWR_MGMT_2 0]) /\
  field 5 1 1 = 0 /\ field 3 1 1 = 0 /\ field 6 2 frequency = 0.
Proof.
  intros Hf Hq.
  assert (Q1 := written_quiet PWR_MGMT_1).
  assert (Q2 := written_quiet PWR_MGMT_2).
  split; [|split].
  - unfold set_low_power_accelerometer_only_on, default,
      _set_low_power_accelerometer_only_off_on, set_temp_off.
    rewrite not_in_0_3, (between_true 0 3 frequency) by exact Hf.
    cbn [not_in existsb Z.eqb Pos.eqb orb negb].
    change (set_cycle 1) with (call cycle 1).
    change (set_sleep 0) with (call sleep_mode 0).
    change (_set_temp_on_off 1) with (call temp_on_off 1).
    change (set_gyro_axis_on_off 7) with (call gyro_axis_on_off 7).
    change (_set_low_power_wake_up_frequency frequency)
      with (call low_power_wake_up_frequency frequency).
    eexists. split.
    + unfold bind at 1.
      rewrite (call_in_domain cycle 1 self) by (auto; unfold in_domain; cbn; lia).
      unfold bind at 1.
      rewrite (call_in_domain sleep_mode 0) by (auto; unfold in_domain; cbn; lia).
      unfold bind at 1.
      rewrite (call_in_domain temp_on_off 1) by (auto; unfold in_domain; cbn; lia).
      unfold bind at 1.
      rewrite (call_in_domain gyro_axis_on_off 7) by (auto; unfold in_domain; cbn; lia).
      rewrite (call_in_domain low_power_wake_up_frequency frequency)
        by (auto 6; unfold in_domain; cbn; lia).
      reflexivity.
    + cbn. now rewrite <- !app_assoc.
  - unfold set_low_power_accelerometer_only_off,
      _set_low_power_accelerometer_only_off_on, set_temp_on.
    cbn [not_in existsb Z.eqb Pos.eqb orb negb].
    change (set_cycle 0) with (call cycle 0).
    change (set_sleep 0) with (call sleep_mode 0).
    change (_set_temp_on_off 0) with (call temp_on_off 0).
    change (set_gyro_axis_on_off 0) with (call gyro_axis_on_off 0).
    eexists. split.
    + unfold bind at 1.
      rewrite (call_in_domain cycle 0 self) by (auto; unfold in_domain; cbn; lia).
      unfold bind at 1.
      rewrite (call_in_domain sleep_mode 0) by (auto; unfold in_domain; cbn; lia).
      unfold bind at 1.
      rewrite (call_in_domain temp_on_off 0) by (auto; unfold in_domain; cbn; lia).
      rewrite (call_in_domain gyro_axis_on_off 0) by (auto; unfold in_domain; cbn; lia).
      reflexivity.
    + cbn. now rewrite <- !app_assoc.
  - repeat split; try reflexivity.
    apply field_small; [change (2 ^ 6) with 64|]; lia.
Qed.

Lemma low_power_bus_transactions_witness :
  (0 <= 2 <= 3 /\ i2c.quiet (port (mkMyMPU 1 (device [] 0)))) /\
  (exists self',
     set_low_power_accelerometer_only_on (Some 2) (mkMyMPU 1 (device [] 0))
     = (Ok tt, self') /\
     i2c.trace (port self')
     = [] ++
       [i2c.WriteRead PWR_MGMT_1 1; i2c.WriteBytes PWR_MGMT_1 1;
        i2c.WriteRead PWR_MGMT_1 1; i2c.WriteBytes PWR_MGMT_1 0;
        i2c.WriteRead PWR_MGMT_1 1; i2c.WriteBytes PWR_MGMT_1 1;
        i2c.WriteRead PWR_MGMT_2 1; i2c.WriteBytes PWR_MGMT_2 7;
        i2c.WriteRead PWR_MGMT_2 1; i2c.WriteBytes PWR_MGMT_2 2]) /\
  (exists self',
     set_low_power_accelerometer_only_off (mkMyMPU 1 (device [] 0)) = (Ok tt, self') /\
     i2c.trace (port self')
     = [] ++
       [i2c.WriteRead PWR_MGMT_1 1; i2c.WriteBytes PWR_MGMT_1 0;
        i2c.WriteRead PWR_MGMT_1 1; i2c.WriteBytes PWR_MGMT_1 0;
        i2c.WriteRead PWR_MGMT_1 1; i2c.WriteBytes PWR_MGMT_1 0;
        i2c.WriteRead PWR_MGMT_2 1; i2c.WriteBytes PWR_MGMT_2 0]) /\
  field 5 1 1 = 0 /\ field 3 1 1 = 0 /\ field 6 2 2 = 0.
Proof.
  split; [split; [lia | constructor]|].
  apply (low_power_bus_transactions 2 (mkMyMPU 1 (device [] 0))); [lia | constructor].
Defined.

(** ** Device reset *)

(** C8.  On a bus that acknowledges, [reset_device] reads and writes
    [PWR_MGMT_1], waits 100 ms, reads and writes [SIGNAL_PATH_RESET], and
    waits 100 ms, in this order.  The byte written to [PWR_MGMT_1] is 0x01:
    its bit 7, the device-reset bit, is clear; the byte written to
    [SIGNAL_PATH_RESET] is 0x07, the three reset bits. *)
Theorem reset_device_bus_transactions (self : MyMPU) :
  i2c.quiet (port self) ->
  exists self',
    reset_device self = (Ok tt, self') /\
    i2c.trace (port self')
    = i2c.trace (port self) ++
      [i2c.WriteRead PWR_MGMT_1 1; i2c.WriteBytes PWR_MGMT_1 1;
       i2c.Sleep 100;
       i2c.WriteRead SIGNAL_PATH_RESET 1; i2c.WriteBytes SIGNAL_PATH_RESET 7;
       i2c.Sleep 100] /\
    i2c.regs (port self') PWR_MGMT_1 = 1 /\
    Z.testbit 1 7 = false /\
    field 0 3 7 = 7.
Proof.
  intros Hq. unfold reset_device.
  eexists. split; [|split].
  - unfold bind at 1.
    rewrite _write_to_register_quiet by (first [exact Hq | lia]).
    unfold bind at 1. rewrite sleep_eq.
    unfold bind at 1.
    rewrite _write_to_register_quiet
      by (first [apply slept_quiet, written_quiet; exact Hq | lia]).
    rewrite sleep_eq. reflexivity.
  - cbn. now rewrite <- !app_assoc.
  - repeat split; reflexivity.
Qed.

Lemma reset_device_bus_transactions_witness :
  i2c.quiet (port (mkMyMPU 1 (device [] 0x40))) /\
  exists self',
    reset_device (mkMyMPU 1 (device [] 0x40)) = (Ok tt, self') /\
    i2c.trace (port self')
    = [] ++
      [i2c.WriteRead PWR_MGMT_1 1; i2c.WriteBytes PWR_MGMT_1 1;
       i2c.Sleep 100;
       i2c.WriteRead SIGNAL_PATH_RESET 1; i2c.WriteBytes SIGNAL_PATH_RESET 7;
       i2c.Sleep 100] /\
    i2c.regs (port self') PWR_MGMT_1 = 1 /\
    Z.testbit 1 7 = false /\
    field 0 3 7 = 7.
Proof.
  split; [constructor|].
  apply (reset_device_bus_transactions (mkMyMPU 1 (device [] 0x40))). constructor.
Defined.

(** ** The cached range *)

(** The cache is assigned after the write went through, and only then. *)
Lemma set_accelerometer_scale_cache (mode : Z) (self : MyMPU) :
  match set_accelerometer_scale mode self with
  | (Ok _, self') => _accel_full_range self' = mode
  | (Raise _, self') => _accel_full_range self' = _accel_full_range self
  end.
Proof.
  unfold set_accelerometer_scale.
  destruct (not_in mode [0; 1; 2; 3]); [reflexivity|].
  unfold bind.
  pose proof (_write_to_register_range ACCEL_CONFIG 0xE7 mode 3 self) as H.
  destruct (_write_to_register ACCEL_CONFIG 0xE7 mode 3 self) as [[u|e] s1];
    cbn in *; trivial.
Qed.

(** No other setter touches the cache. *)
Lemma call_keeps_cache (s : setter) (mode : Z) (self : MyMPU) :
  s <> accelerometer_scale ->
  _accel_full_range (snd (call s mode self)) = _accel_full_range self.
Proof.
  intros Hs.
  destruct s; try contradiction; cbn [call];
    unfold set_clock_source, set_digital_low_pass_filter,
      set_external_sync, set_sleep, set_cycle, _set_temp_on_off,
      set_gyro_axis_on_off, _set_low_power_wake_up_frequency;
    match goal with |- context [not_in ?m ?t] => destruct (not_in m t) end;
    try reflexivity; apply _write_to_register_range.
Qed.

(** C9.  [set_accelerometer_scale] assigns the cache after its write went
    through and leaves it alone when it raised, whatever the bus does.  On a
    bus that acknowledges, with a mode in 0..3, it caches the mode, and the
    byte of its write to [ACCEL_CONFIG], the last one there, is the mode
    itself: bits 3-4 of that byte, the range field, are 0 whatever the mode. *)
Theorem accelerometer_scale_cache_and_bus (mode : Z) (self : MyMPU) :
  match set_accelerometer_scale mode self with
  | (Ok _, self') => _accel_full_range self' = mode
  | (Raise _, self') => _accel_full_range self' = _accel_full_range self
  end /\
  (0 <= mode <= 3 ->
   i2c.quiet (port self) ->
   exists self',
     set_accelerometer_scale mode self = (Ok tt, self') /\
     _accel_full_range self' = mode /\
     i2c.last_write ACCEL_CONFIG (i2c.trace (port self')) = Some mode /\
     field 3 2 mode = 0).
Proof.
  split; [apply set_accelerometer_scale_cache|].
  intros Hm Hq. eexists. split; [|split; [|split]].
  - apply (call_in_domain accelerometer_scale mode self); [exact Hm | exact Hq].
  - reflexivity.
  - cbn [port written register_of i2c.trace]. apply last_write_snoc.
  - apply field_small; [change (2 ^ 3) with 8|]; lia.
Qed.

Lemma accelerometer_scale_cache_and_bus_witness :
  (0 <= 1 <= 3 /\ i2c.quiet (port (mkMyMPU 0 (device [] 0)))) /\
  exists self',
    set_accelerometer_scale 1 (mkMyMPU 0 (device [] 0)) = (Ok tt, self') /\
    _accel_full_range self' = 1 /\
    i2c.last_write ACCEL_CONFIG (i2c.trace (port self')) = Some 1 /\
    field 3 2 1 = 0.
Proof.
  split; [split; [lia | constructor]|].
  apply (proj2 (accelerometer_scale_cache_and_bus 1 (mkMyMPU 0 (device [] 0))));
    [lia | constructor].
Defined.

(** ** Default wake-up frequency *)

(** C10.  Left out, the frequency of [set_low_power_accelerometer_only_on] is
    3: the call is the low-power switch with mode 1 and frequency 3.  3 is the
    largest frequency code of the domain 0..3 and its rate, 40 Hz, the largest
    of the table.  [Manager.__init__] builds the driver and makes that call
    without a frequency. *)
Theorem low_power_default_frequency :
  (forall self,
     set_low_power_accelerometer_only_on None self
     = _set_low_power_accelerometer_only_off_on 1 3 self) /\
  (forall self,
     set_low_power_accelerometer_only_on None self
     = set_low_power_accelerometer_only_on (Some 3) self) /\
  (forall self,
     set_low_power_accelerometer_only_on None self
     = (set_cycle 1 ;; set_sleep 0 ;; set_temp_off ;; set_gyro_axis_on_off 7 ;;
        _set_low_power_wake_up_frequency 3) self) /\
  (forall f, In f [0; 1; 2; 3] ->
     f <= 3 /\ (wake_up_frequency_hz f <= wake_up_frequency_hz 3)%Q) /\
  (wake_up_frequency_hz 3 == 40)%Q /\
  (forall bus i2c_name,
     Manager.__init__ bus i2c_name
     = match __init__ bus i2c_name None with
       | (Ok accelerometer, _) =>
           match _set_low_power_accelerometer_only_off_on 1 3 accelerometer with
           | (Ok _, accelerometer) => (Ok accelerometer, port accelerometer)
           | (Raise e, accelerometer) => (Raise e, port accelerometer)
           end
       | (Raise e, bus) => (Raise e, bus)
       end).
Proof.
  split; [reflexivity|]. split; [reflexivity|]. split; [reflexivity|].
  split; [|split].
  - intros f Hf. cbn in Hf.
    destruct Hf as [<-|[<-|[<-|[<-|[]]]]]; cbn; split;
      solve [lia | discriminate].
  - reflexivity.
  - reflexivity.
Qed.

Lemma low_power_default_frequency_witness :
  In 2 [0; 1; 2; 3] /\
  2 <= 3 /\ (wake_up_frequency_hz 2 <= wake_up_frequency_hz 3)%Q.
Proof.
  split; [cbn; tauto|].
  apply (proj1 (proj2 (proj2 (proj2 low_power_default_frequency))) 2). cbn; tauto.
Defined.

(** ** Sample decoding *)

Lemma getitem_ACCEL_SCALE (i : Z) :
  0 <= i <= 3 ->
  exists accel_scale,
    getitem ACCEL_SCALE i = Ok accel_scale /\
    In accel_scale ACCEL_SCALE /\ (0 < accel_scale)%Q.
Proof.
  intros Hi.
  assert (i = 0 \/ i = 1 \/ i = 2 \/ i = 3) as [-> | [-> | [-> | ->]]] by lia;
    eexists; (split; [reflexivity|]); (split; [cbn; tauto | reflexivity]).
Qed.

(** An acknowledged read of the six sample bytes. *)
Lemma get_accelerometer_values_ack (b0 b1 b2 b3 b4 b5 : Z) (self : MyMPU) :
  hd false (i2c.faults (port self)) = false ->
  i2c.peek ACCEL_FIRST_REGISTER 6 (port self) = [b0; b1; b2; b3; b4; b5] ->
  get_accelerometer_values self
  = match getitem ACCEL_SCALE (_accel_full_range self) with
    | Ok accel_scale =>
        (Ok (inject_Z (raw_axis b0 b1) / accel_scale,
             inject_Z (raw_axis b2 b3) / accel_scale,
             inject_Z (raw_axis b4 b5) / accel_scale)%Q,
         read_done ACCEL_FIRST_REGISTER 6 self)
    | Raise e => (Raise e, read_done ACCEL_FIRST_REGISTER 6 self)
    end.
Proof.
  intros Hq Hb. unfold get_accelerometer_values.
  unfold bind at 1. unfold on_port, i2c.write_read, i2c.attempt.
  rewrite Hq. unfold i2c.peek in *. cbn [i2c.regs] in *. rewrite Hb.
  unfold i2c.emit; cbn [i2c.regs i2c.trace i2c.faults].
  fold (read_done ACCEL_FIRST_REGISTER 6 self).
  unfold bind, lift, ret. cbn [getitem length Z.of_nat].
  cbn -[ACCEL_SCALE getitem Z.shiftl Z.lor _twos_comp_to_int Qdiv inject_Z].
  fold (raw_axis b0 b1). fold (raw_axis b2 b3). fold (raw_axis b4 b5).
  destruct (getitem ACCEL_SCALE (_accel_full_range self)); reflexivity.
Qed.

(** A successful [set_accelerometer_scale] had its mode in 0..3. *)
Lemma set_accelerometer_scale_ok (mode : Z) (self self1 : MyMPU) :
  set_accelerometer_scale mode self = (Ok tt, self1) ->
  0 <= mode <= 3 /\ _accel_full_range self1 = mode.
Proof.
  intros H. split.
  - unfold set_accelerometer_scale in H. rewrite not_in_0_3 in H.
    destruct (Z_le_dec 0 mode), (Z_le_dec mode 3); try lia;
      rewrite (between_false 0 3 mode) in H by lia; discriminate.
  - pose proof (set_accelerometer_scale_cache mode self) as C.
    now rewrite H in C.
Qed.

(** C2.  After a successful [set_accelerometer_scale i], which is what the
    call is for [i] in 0..3 when the bus acknowledges, an acknowledged
    [get_accelerometer_values] returns, for each axis, the signed 16-bit value
    the device holds for it divided by [ACCEL_SCALE[i]]; with [i = 1] and the
    bytes 0x10 0x00 0x00 0x00 0x20 0x00 it returns 0.5, 0 and 1. *)
Theorem accelerometer_values_scaled (i rx ry rz : Z) (self self1 : MyMPU) :
  -32768 <= rx <= 32767 ->
  -32768 <= ry <= 32767 ->
  -32768 <= rz <= 32767 ->
  set_accelerometer_scale i self = (Ok tt, self1) ->
  hd false (i2c.faults (port self1)) = false ->
  i2c.peek ACCEL_FIRST_REGISTER 6 (port self1) = be16 rx ++ be16 ry ++ be16 rz ->
  exists accel_scale x y z,
    0 <= i <= 3 /\
    getitem ACCEL_SCALE i = Ok accel_scale /\
    get_accelerometer_values self1
    = (Ok (x, y, z), read_done ACCEL_FIRST_REGISTER 6 self1) /\
    x = (inject_Z rx / accel_scale)%Q /\
    y = (inject_Z ry / accel_scale)%Q /\
    z = (inject_Z rz / accel_scale)%Q /\
    (i = 1 -> rx = 0x1000 -> ry = 0 -> rz = 0x2000 ->
     be16 rx ++ be16 ry ++ be16 rz = [0x10; 0x00; 0x00; 0x00; 0x20; 0x00] /\
     (x == 0.5)%Q /\ (y == 0)%Q /\ (z == 1)%Q).
Proof.
  intros Hx Hy Hz Hset Hack Hb.
  destruct (set_accelerometer_scale_ok i self self1 Hset) as [Hi Hrange].
  destruct (getitem_ACCEL_SCALE i Hi) as (accel_scale & Hs & _ & _).
  exists accel_scale, (inject_Z rx / accel_scale)%Q, (inject_Z ry / accel_scale)%Q,
    (inject_Z rz / accel_scale)%Q.
  split; [exact Hi|]. split; [exact Hs|]. split.
  - rewrite (get_accelerometer_values_ack
               (encode16 rx / 256) (encode16 rx mod 256)
               (encode16 ry / 256) (encode16 ry mod 256)
               (encode16 rz / 256) (encode16 rz mod 256) self1 Hack Hb).
    rewrite Hrange, Hs. unfold raw_axis.
    rewrite !raw_axis_be16 by assumption. reflexivity.
  - do 3 (split; [reflexivity|]).
    intros -> -> -> ->. cbv in Hs. injection Hs as <-.
    repeat split; reflexivity.
Qed.

Lemma accelerometer_values_scaled_witness :
  (-32768 <= 0x1000 <= 32767 /\ -32768 <= 0 <= 32767 /\ -32768 <= 0x2000 <= 32767 /\
   set_accelerometer_scale 1 half_g_before = (Ok tt, half_g) /\
   hd false (i2c.faults (port half_g)) = false /\
   i2c.peek ACCEL_FIRST_REGISTER 6 (port half_g)
   = be16 0x1000 ++ be16 0 ++ be16 0x2000) /\
  exists accel_scale x y z,
    0 <= 1 <= 3 /\
    getitem ACCEL_SCALE 1 = Ok accel_scale /\
    get_accelerometer_values half_g
    = (Ok (x, y, z), read_done ACCEL_FIRST_REGISTER 6 half_g) /\
    x = (inject_Z 0x1000 / accel_scale)%Q /\
    y = (inject_Z 0 / accel_scale)%Q /\
    z = (inject_Z 0x2000 / accel_scale)%Q /\
    (1 = 1 -> 0x1000 = 0x1000 -> 0 = 0 -> 0x2000 = 0x2000 ->
     be16 0x1000 ++ be16 0 ++ be16 0x2000 = [0x10; 0x00; 0x00; 0x00; 0x20; 0x00] /\
     (x == 0.5)%Q /\ (y == 0)%Q /\ (z == 1)%Q).
Proof.
  split.
  - repeat split; try lia; reflexivity.
  - apply (accelerometer_values_scaled 1 0x1000 0 0x2000 half_g_before half_g);
      try lia; reflexivity.
Defined.

(** ** Pitch and roll *)

Section PitchAndRoll.

Local Open Scope R_scope.

Lemma int_between (n : Z) (r : R) :
  (0 <= n)%Z -> IZR n <= r < IZR n + 1 -> int r = n.
Proof.
  intros Hn [H1 H2]. unfold int.
  destruct (Rle_dec 0 r) as [H|H].
  - symmetry. apply Int_part_spec. lra.
  - exfalso. apply H.
    apply Rle_trans with (IZR n); [apply IZR_le; lia | exact H1].
Qed.

Lemma truediv_zero (a b : R) : b = 0 -> truediv a b = Raise ZeroDivisionError.
Proof.
  intros Hb. unfold truediv. now destruct (Req_dec_T b 0).
Qed.

Lemma truediv_nonzero (a b : R) : b <> 0 -> truediv a b = Ok (a / b).
Proof.
  intros Hb. unfold truediv. now destruct (Req_dec_T b 0).
Qed.

Lemma truediv_cases (a b : R) :
  truediv a b = Raise ZeroDivisionError \/ truediv a b = Ok (a / b).
Proof.
  unfold truediv. destruct (Req_dec_T b 0); auto.
Qed.

Lemma Q2R_zero (q : Q) : (q == 0)%Q -> Q2R q = 0.
Proof.
  intros H. rewrite (Qeq_eqR _ _ H). unfold Q2R; cbn. lra.
Qed.

Lemma Q2R_one (q : Q) : (q == 1)%Q -> Q2R q = 1.
Proof.
  intros H. rewrite (Qeq_eqR _ _ H). unfold Q2R; cbn. lra.
Qed.

Lemma hypot_zero (a b : R) : a = 0 -> b = 0 -> sqrt (a * a + b * b) = 0.
Proof.
  intros -> ->. replace (0 * 0 + 0 * 0) with 0 by ring. apply sqrt_0.
Qed.

(** The body of [get_pitch_and_roll] once the sample is known. *)
Lemma get_pitch_and_roll_eq (self self' : MyMPU) (x y z : Q) :
  get_accelerometer_values self = (Ok (x, y, z), self') ->
  get_pitch_and_roll self
  = (match truediv (Q2R x) (sqrt (Q2R y * Q2R y + Q2R z * Q2R z)) with
     | Raise e => Raise e
     | Ok p =>
         match truediv (Q2R y) (sqrt (Q2R x * Q2R x + Q2R z * Q2R z)) with
         | Raise e => Raise e
         | Ok r => Ok (int (atan p * 180 / 3.14), int (atan r * 180 / 3.14))
         end
     end, self').
Proof.
  intros H. unfold get_pitch_and_roll, bind. rewrite H. unfold lift, ret.
  destruct (truediv (Q2R x) _); [|reflexivity].
  destruct (truediv (Q2R y) _); reflexivity.
Qed.

(** The level sample (0, 0, 1): pitch 0 and roll 0. *)
Lemma level_sample (self self' : MyMPU) (x y z : Q) :
  get_accelerometer_values self = (Ok (x, y, z), self') ->
  (x == 0)%Q -> (y == 0)%Q -> (z == 1)%Q ->
  get_pitch_and_roll self = (Ok (0%Z, 0%Z), self').
Proof.
  intros H Hx Hy Hz. rewrite (get_pitch_and_roll_eq _ _ _ _ _ H).
  rewrite (Q2R_zero _ Hx), (Q2R_zero _ Hy), (Q2R_one _ Hz).
  replace (0 * 0 + 1 * 1) with (1 * 1) by ring.
  rewrite sqrt_square by lra.
  rewrite !truediv_nonzero by lra.
  replace (0 / 1) with 0 by field. rewrite atan_0.
  replace (0 * 180 / 3.14) with (IZR 0) by lra.
  rewrite (int_between 0 (IZR 0)) by (try lia; lra). reflexivity.
Qed.

Lemma atan_le_id (u : R) : 0 < u < 1 -> atan u <= u.
Proof.
  intros Hu. rewrite atan_eq_ps_atan by exact Hu.
  unfold ps_atan. destruct (in_int u) as [Hi|Hn]; [|exfalso; apply Hn; lra].
  destruct (ps_atan_exists_1 u Hi) as [v Pv].
  assert (dec : Un_decreasing (Ratan_seq u)) by (apply Ratan_seq_decreasing; lra).
  assert (cv : Un_cv (Ratan_seq u) 0) by (apply Ratan_seq_converging; lra).
  destruct (alternated_series_ineq _ _ 0 dec cv Pv) as [_ Hup].
  simpl in Hup. unfold tg_alt, Ratan_seq in Hup. simpl in Hup. lra.
Qed.

Lemma PI_bounds : 3.1405 < PI < 3.15.
Proof.
  destruct (PI_2_3_7_ineq 1) as [Hlo Hhi].
  unfold PI_2_3_7_tg, tg_alt, Ratan_seq in Hlo, Hhi.
  simpl in Hlo, Hhi.
  split; lra.
Qed.

Lemma atan_steep : PI / 2 - / 32767 <= atan 32767 < PI / 2.
Proof.
  assert (H := atan_inv 32767 ltac:(lra)).
  assert (H1 : atan (/ 32767) <= / 32767) by (apply atan_le_id; lra).
  split; [lra|]. apply atan_bound.
Qed.

Lemma degrees_3_14_steep : int (atan 32767 * 180 / 3.14) = 90%Z.
Proof.
  apply int_between; [lia|].
  pose proof atan_steep. pose proof PI_bounds. split; lra.
Qed.

Lemma degrees_pi_steep : int (atan 32767 * 180 / PI) = 89%Z.
Proof.
  apply int_between; [lia|].
  pose proof atan_steep as [H1 H2]. pose proof PI_bounds as [P1 P2].
  split.
  - apply Rmult_le_reg_r with PI; [lra|].
    replace (atan 32767 * 180 / PI * PI) with (atan 32767 * 180) by (field; lra).
    lra.
  - apply Rmult_lt_reg_r with PI; [lra|].
    replace (atan 32767 * 180 / PI * PI) with (atan 32767 * 180) by (field; lra).
    lra.
Qed.

End PitchAndRoll.

Lemma steep_sample_quotients :
  (Q2R (32767 # 8192)
   / sqrt (Q2R (0 # 8192) * Q2R (0 # 8192) + Q2R (1 # 8192) * Q2R (1 # 8192))
   = 32767)%R /\
  (sqrt (Q2R (0 # 8192) * Q2R (0 # 8192) + Q2R (1 # 8192) * Q2R (1 # 8192)) <> 0)%R /\
  (Q2R (0 # 8192)
   / sqrt (Q2R (32767 # 8192) * Q2R (32767 # 8192) + Q2R (1 # 8192) * Q2R (1 # 8192))
   = 0)%R /\
  (sqrt (Q2R (32767 # 8192) * Q2R (32767 # 8192) + Q2R (1 # 8192) * Q2R (1 # 8192))
   <> 0)%R.
Proof.
  assert (Hx : Q2R (32767 # 8192) = (32767 / 8192)%R)
    by (unfold Q2R; cbn [Qnum Qden]; lra).
  assert (Hy : Q2R (0 # 8192) = 0%R) by (unfold Q2R; cbn [Qnum Qden]; lra).
  assert (Hz : Q2R (1 # 8192) = (/ 8192)%R) by (unfold Q2R; cbn [Qnum Qden]; lra).
  rewrite Hx, Hy, Hz.
  assert (Hs : sqrt (0 * 0 + / 8192 * / 8192) = (/ 8192)%R).
  { replace (0 * 0 + / 8192 * / 8192)%R with (/ 8192 * / 8192)%R by ring.
    apply sqrt_square. lra. }
  assert (Hp : (0 < sqrt (32767 / 8192 * (32767 / 8192) + / 8192 * / 8192))%R).
  { apply sqrt_lt_R0. lra. }
  rewrite Hs. repeat split.
  - field.
  - lra.
  - unfold Rdiv. ring.
  - lra.
Qed.

(** C5.  With range 1 and raw sample x = 32767, y = 0, z = 1, that is the
    Physical Sample (32767/8192, 0, 1/8192), [get_pitch_and_roll] returns
    pitch 90 and roll 0: the angle is scaled by 180 / 3.14.  Scaled by
    180 / pi, the same angle truncates to 89.  On the sample (0, 0, 1.0) it
    returns pitch 0 and roll 0. *)
Theorem pitch_scaled_by_3_14 :
  get_accelerometer_values steep
  = (Ok ((32767 # 8192)%Q, (0 # 8192)%Q, (1 # 8192)%Q),
     read_done ACCEL_FIRST_REGISTER 6 steep) /\
  get_pitch_and_roll steep = (Ok (90, 0), read_done ACCEL_FIRST_REGISTER 6 steep) /\
  int (atan (Q2R (32767 # 8192)
             / sqrt (Q2R (0 # 8192) * Q2R (0 # 8192)
                     + Q2R (1 # 8192) * Q2R (1 # 8192)))
       * 180 / PI) = 89 /\
  get_pitch_and_roll level = (Ok (0, 0), read_done ACCEL_FIRST_REGISTER 6 level).
Proof.
  destruct steep_sample_quotients as (Hp & Hpd & Hr & Hrd).
  assert (H : get_accelerometer_values steep
              = (Ok ((32767 # 8192)%Q, (0 # 8192)%Q, (1 # 8192)%Q),
                 read_done ACCEL_FIRST_REGISTER 6 steep)) by reflexivity.
  split; [exact H|]. split; [|split].
  - rewrite (get_pitch_and_roll_eq _ _ _ _ _ H).
    rewrite !truediv_nonzero by assumption.
    rewrite Hp, Hr, atan_0, degrees_3_14_steep.
    replace (0 * 180 / 3.14)%R with (IZR 0) by lra.
    rewrite (int_between 0 (IZR 0)) by (try lia; lra).
    reflexivity.
  - rewrite Hp. apply degrees_pi_steep.
  - apply (level_sample level _ (0 # 8192)%Q (0 # 8192)%Q (8192 # 8192)%Q);
      reflexivity.
Qed.

(** The claim of C6 fails on the sample (1.0, 0, 0), read with range 1 from the
    bytes 0x20 0x00 0x00 0x00 0x00 0x00: the division by the zero denominator
    of the pitch raises [ZeroDivisionError], not [DomainError], and no roll
    comes back. *)
Lemma zero_denominator_is_a_division_fault :
  get_accelerometer_values along_x
  = (Ok ((8192 # 8192)%Q, (0 # 8192)%Q, (0 # 8192)%Q),
     read_done ACCEL_FIRST_REGISTER 6
       along_x) /\
  ((8192 # 8192) == 1 /\ (0 # 8192) == 0)%Q /\
  fst (get_pitch_and_roll along_x)
  = Raise ZeroDivisionError /\
  fst (get_pitch_and_roll along_x)
  <> Raise DomainError.
Proof.
  assert (H : get_accelerometer_values
                along_x
              = (Ok ((8192 # 8192)%Q, (0 # 8192)%Q, (0 # 8192)%Q),
                 read_done ACCEL_FIRST_REGISTER 6
                   along_x))
    by reflexivity.
  split; [exact H|]. split; [split; reflexivity|].
  rewrite (get_pitch_and_roll_eq _ _ _ _ _ H).
  rewrite truediv_zero by (apply hypot_zero; apply Q2R_zero; reflexivity).
  split; [reflexivity | discriminate].
Qed.

(** C6, amended.  For every sample with a zero denominator, y and z both zero
    or x and z both zero, [get_pitch_and_roll] fails as a whole with the
    [ZeroDivisionError] of the division, and returns neither pitch nor roll. *)
Theorem zero_denominator_raises_ZeroDivisionError
  (self self' : MyMPU) (x y z : Q) :
  get_accelerometer_values self = (Ok (x, y, z), self') ->
  (y == 0 /\ z == 0)%Q \/ (x == 0 /\ z == 0)%Q ->
  get_pitch_and_roll self = (Raise ZeroDivisionError, self').
Proof.
  intros H Hzero. rewrite (get_pitch_and_roll_eq _ _ _ _ _ H).
  destruct Hzero as [[Hy Hz]|[Hx Hz]].
  - (* the division of the pitch raises *)
    rewrite truediv_zero; [reflexivity|].
    apply hypot_zero; now apply Q2R_zero.
  - (* the division of the pitch raises, or else that of the roll does *)
    destruct (truediv_cases (Q2R x) (sqrt (Q2R y * Q2R y + Q2R z * Q2R z)))
      as [-> | ->]; [reflexivity|].
    rewrite truediv_zero; [reflexivity|].
    apply hypot_zero; now apply Q2R_zero.
Qed.

Lemma zero_denominator_raises_ZeroDivisionError_witness :
  (get_accelerometer_values along_x
   = (Ok ((8192 # 8192)%Q, (0 # 8192)%Q, (0 # 8192)%Q),
      read_done ACCEL_FIRST_REGISTER 6
        along_x) /\
   (((0 # 8192) == 0 /\ (0 # 8192) == 0)%Q \/ ((8192 # 8192) == 0 /\ (0 # 8192) == 0)%Q)) /\
  get_pitch_and_roll along_x
  = (Raise ZeroDivisionError,
     read_done ACCEL_FIRST_REGISTER 6
       along_x).
Proof.
  assert (H : ((0 # 8192) == 0 /\ (0 # 8192) == 0)%Q) by (split; reflexivity).
  split; [split; [reflexivity | left; exact H]|].
  apply (zero_denominator_raises_ZeroDivisionError
           along_x
           (read_done ACCEL_FIRST_REGISTER 6
              along_x)
           (8192 # 8192)%Q (0 # 8192)%Q (0 # 8192)%Q);
    [reflexivity | left; exact H].
Defined.

(** * Further properties of the driver *)

(** ** [_write_to_register] on any bus *)

(** Either both transactions went through, or the first refused one raised
    and the register file is as it was. *)
Lemma _write_to_register_cases (register mask value starting_bit : Z) (self : MyMPU) :
  0 <= starting_bit ->
  _accel_full_range (snd (_write_to_register register mask value starting_bit self))
  = _accel_full_range self /\
  ((fst (_write_to_register register mask value starting_bit self) = Ok tt /\
    i2c.regs (port (snd (_write_to_register register mask value starting_bit self)))
    = i2c.store register value (i2c.regs (port self)) /\
    i2c.trace (port (snd (_write_to_register register mask value starting_bit self)))
    = i2c.trace (port self)
      ++ firstn 2 [i2c.WriteRead register 1; i2c.WriteBytes register value]) \/
   (fst (_write_to_register register mask value starting_bit self) = Raise TransportError /\
    i2c.regs (port (snd (_write_to_register register mask value starting_bit self)))
    = i2c.regs (port self) /\
    exists k, (k < 2)%nat /\
      i2c.trace (port (snd (_write_to_register register mask value starting_bit self)))
      = i2c.trace (port self)
        ++ firstn k [i2c.WriteRead register 1; i2c.WriteBytes register value])).
Proof.
  intros Hs. split; [apply _write_to_register_range|].
  unfold _write_to_register, bind, on_port, lift, i2c.write_read, i2c.write_bytes,
    i2c.attempt, i2c.emit, i2c.peek.
  rewrite (lshift_ok _ _ Hs).
  cbn [i2c.regs i2c.trace i2c.faults].
  destruct (i2c.faults (port self)) as [|b1 [|b2 fs]]; cbn [hd tl];
    try destruct b1; try destruct b2; cbn;
    try (left; repeat split; now rewrite <- app_assoc);
    right; (split; [reflexivity|]); (split; [reflexivity|]).
  all: first [ exists 0%nat; split; [lia|]; cbn; now rewrite app_nil_r
             | exists 1%nat; split; [lia|]; reflexivity ].
Qed.

(** ** Plans *)

Lemma follows_bind {A B} (c : M A) (k : A -> M B) (plan1 plan2 : list i2c.event) :
  follows c plan1 ->
  (forall a, follows (k a) plan2) ->
  follows (bind c k) (plan1 ++ plan2).
Proof.
  intros Hc Hk self. destruct (Hc self) as (k1 & Ht & Hr).
  unfold bind. destruct (c self) as [[a|e] s1]; cbn [fst snd] in *.
  - subst k1. destruct (Hk a s1) as (k2 & Ht2 & Hr2).
    exists (length plan1 + k2)%nat. split.
    + rewrite Ht2, Ht, firstn_all, firstn_app_2, app_assoc. reflexivity.
    + destruct (fst (k a s1)).
      * rewrite length_app. lia.
      * destruct Hr2 as [-> Hlt]. split; [reflexivity|]. rewrite length_app. lia.
  - destruct Hr as [-> Hlt]. exists k1. split.
    + rewrite Ht, firstn_app.
      replace (k1 - length plan1)%nat with 0%nat by lia.
      cbn. now rewrite app_nil_r.
    + split; [reflexivity|]. rewrite length_app. lia.
Qed.

Lemma follows_write (register mask value starting_bit : Z) :
  0 <= starting_bit ->
  follows (_write_to_register register mask value starting_bit)
          [i2c.WriteRead register 1; i2c.WriteBytes register value].
Proof.
  intros Hs self.
  destruct (_write_to_register_cases register mask value starting_bit self Hs)
    as [_ [(Hr & _ & Ht)|(Hr & _ & k & Hk & Ht)]].
  - exists 2%nat. rewrite Hr. split; [exact Ht | reflexivity].
  - exists k. rewrite Hr. split; [exact Ht|]. split; [reflexivity | exact Hk].
Qed.

Lemma follows_call (s : setter) (mode : Z) :
  in_domain s mode ->
  follows (call s mode)
          [i2c.WriteRead (register_of s) 1; i2c.WriteBytes (register_of s) mode].
Proof.
  intros Hd. unfold in_domain in Hd.
  destruct s; cbn [domain fst snd] in Hd; cbn [call register_of];
    unfold set_clock_source, set_accelerometer_scale, set_digital_low_pass_filter,
      set_external_sync, set_sleep, set_cycle, _set_temp_on_off,
      set_gyro_axis_on_off, _set_low_power_wake_up_frequency;
    rewrite ?not_in_0_1, ?not_in_0_3, ?not_in_0_7, between_true by exact Hd;
    try (apply follows_write; lia).
  (* set_accelerometer_scale: the assignment of the cache adds nothing *)
  rewrite <- (app_nil_r [i2c.WriteRead ACCEL_CONFIG 1; i2c.WriteBytes ACCEL_CONFIG mode]).
  apply follows_bind; [apply follows_write; lia|].
  intros _ self. exists 0%nat. cbn. rewrite app_nil_r. split; reflexivity.
Qed.

Ltac in_domain_now := unfold in_domain; cbn [domain fst snd]; lia.

Ltac next_pair :=
  match goal with
  | |- follows (bind _ _) (?a :: ?b :: ?rest) =>
      apply (follows_bind _ _ [a; b] rest); [|intros _]
  end.

Lemma follows_configure_sensor_to_default :
  follows configure_sensor_to_default
    [i2c.WriteRead PWR_MGMT_1 1; i2c.WriteBytes PWR_MGMT_1 1;
     i2c.WriteRead ACCEL_CONFIG 1; i2c.WriteBytes ACCEL_CONFIG 1;
     i2c.WriteRead REG_CONFIG 1; i2c.WriteBytes REG_CONFIG 0].
Proof.
  unfold configure_sensor_to_default.
  next_pair; [exact (follows_call clock_source 1 ltac:(in_domain_now))|].
  next_pair; [exact (follows_call accelerometer_scale 1 ltac:(in_domain_now))|].
  exact (follows_call external_sync 0 ltac:(in_domain_now)).
Qed.

Lemma configure_sensor_to_default_cache (self : MyMPU) :
  match configure_sensor_to_default self with
  | (Ok _, self') => _accel_full_range self' = 1
  | (Raise _, _) => True
  end.
Proof.
  unfold configure_sensor_to_default, bind.
  destruct (set_clock_source 1 self) as [[u|e] s1]; [|exact I].
  pose proof (set_accelerometer_scale_cache 1 s1) as H2.
  destruct (set_accelerometer_scale 1 s1) as [[u2|e2] s2]; [|exact I].
  pose proof (call_keeps_cache external_sync 0 s2 ltac:(discriminate)) as H3.
  cbn [call] in H3.
  destruct (set_external_sync 0 s2) as [[u3|e3] s3]; [|exact I].
  cbn [snd] in H3. congruence.
Qed.

(** ** The cached range under the methods *)

Lemma keeps_bind {A B} (c : M A) (k : A -> M B) :
  keeps_cache c -> (forall a, keeps_cache (k a)) -> keeps_cache (bind c k).
Proof.
  intros Hc Hk self. unfold bind. specialize (Hc self).
  destruct (c self) as [[a|e] s1]; cbn [snd] in *; [|exact Hc].
  now rewrite Hk.
Qed.

Lemma keeps_on_port {A} (op : i2c.I2C -> result A * i2c.I2C) : keeps_cache (on_port op).
Proof. intros self. apply on_port_range. Qed.

Lemma keeps_lift {A} (r : result A) : keeps_cache (lift r).
Proof. intros self. reflexivity. Qed.

Lemma keeps_write (register mask value starting_bit : Z) :
  keeps_cache (_write_to_register register mask value starting_bit).
Proof. intros self. apply _write_to_register_range. Qed.

Lemma keeps_call (s : setter) (mode : Z) :
  s <> accelerometer_scale -> keeps_cache (call s mode).
Proof. intros Hs self. now apply call_keeps_cache. Qed.

Ltac keeps_setter :=
  match goal with
  | |- keeps_cache (set_cycle ?m) => exact (keeps_call cycle m ltac:(discriminate))
  | |- keeps_cache (set_sleep ?m) => exact (keeps_call sleep_mode m ltac:(discriminate))
  | |- keeps_cache (_set_temp_on_off ?m) =>
      exact (keeps_call temp_on_off m ltac:(discriminate))
  | |- keeps_cache (set_gyro_axis_on_off ?m) =>
      exact (keeps_call gyro_axis_on_off m ltac:(discriminate))
  | |- keeps_cache (_set_low_power_wake_up_frequency ?m) =>
      exact (keeps_call low_power_wake_up_frequency m ltac:(discriminate))
  | |- keeps_cache (set_clock_source ?m) =>
      exact (keeps_call clock_source m ltac:(discriminate))
  | |- keeps_cache (set_external_sync ?m) =>
      exact (keeps_call external_sync m ltac:(discriminate))
  | |- keeps_cache (set_digital_low_pass_filter ?m) =>
      exact (keeps_call digital_low_pass_filter m ltac:(discriminate))
  end.

Lemma keeps_low_power (mode frequency : Z) :
  keeps_cache (_set_low_power_accelerometer_only_off_on mode frequency).
Proof.
  unfold _set_low_power_accelerometer_only_off_on, set_temp_on, set_temp_off.
  destruct (not_in mode [0; 1]); [intros self; reflexivity|].
  destruct (not_in frequency [0; 1; 2; 3]); [intros self; reflexivity|].
  destruct (mode =? 0); cbv beta iota;
    repeat (apply keeps_bind; [|intros _]); keeps_setter.
Qed.

Lemma keeps_reset_device : keeps_cache reset_device.
Proof.
  unfold reset_device.
  repeat (apply keeps_bind; [|intros _]);
    first [apply keeps_write | apply keeps_on_port].
Qed.

Lemma keeps_get_accelerometer_values : keeps_cache get_accelerometer_values.
Proof.
  unfold get_accelerometer_values.
  apply keeps_bind; [apply keeps_on_port | intros values_read].
  do 6 (apply keeps_bind; [apply keeps_lift | intros ?]).
  intros self. unfold bind, lift, ret.
  destruct (getitem ACCEL_SCALE (_accel_full_range self)); reflexivity.
Qed.

Lemma keeps_get_pitch_and_roll : keeps_cache get_pitch_and_roll.
Proof.
  unfold get_pitch_and_roll.
  apply keeps_bind; [apply keeps_get_accelerometer_values | intros [[x y] z]].
  apply keeps_bind; [apply keeps_lift | intros p].
  apply keeps_bind; [apply keeps_lift | intros r].
  intros self. reflexivity.
Qed.

(** ** Protocols on a bus that may refuse transactions *)

Lemma steps_done_le (plan : list i2c.event) (faults : list bool) :
  (steps_done plan faults <= length plan)%nat.
Proof.
  revert faults. induction plan as [|e plan IH]; intros faults; cbn; [lia|].
  destruct (is_transaction e); [destruct (hd false faults)|].
  - lia.
  - specialize (IH (tl faults)). lia.
  - specialize (IH faults). lia.
Qed.

Lemma steps_done_app_complete (plan1 plan2 : list i2c.event) (faults : list bool) :
  steps_done plan1 faults = length plan1 ->
  steps_done (plan1 ++ plan2) faults
  = (length plan1 + steps_done plan2 (faults_left plan1 faults))%nat /\
  faults_left (plan1 ++ plan2) faults = faults_left plan2 (faults_left plan1 faults).
Proof.
  revert faults. induction plan1 as [|e plan1 IH]; intros faults; cbn.
  - intros _. split; reflexivity.
  - destruct (is_transaction e); [destruct (hd false faults)|]; intros H.
    + discriminate.
    + destruct (IH (tl faults)) as [-> ->]; [lia|]. split; reflexivity.
    + destruct (IH faults) as [-> ->]; [lia|]. split; reflexivity.
Qed.

Lemma steps_done_app_stopped (plan1 plan2 : list i2c.event) (faults : list bool) :
  (steps_done plan1 faults < length plan1)%nat ->
  steps_done (plan1 ++ plan2) faults = steps_done plan1 faults /\
  faults_left (plan1 ++ plan2) faults = faults_left plan1 faults.
Proof.
  revert faults. induction plan1 as [|e plan1 IH]; intros faults; cbn.
  - lia.
  - destruct (is_transaction e); [destruct (hd false faults)|]; intros H.
    + split; reflexivity.
    + destruct (IH (tl faults)) as [-> ->]; [lia|]. split; reflexivity.
    + destruct (IH faults) as [-> ->]; [lia|]. split; reflexivity.
Qed.

Lemma apply_writes_app (steps1 steps2 : list i2c.event) (regs : Z -> Z) :
  apply_writes (steps1 ++ steps2) regs = apply_writes steps2 (apply_writes steps1 regs).
Proof. apply fold_left_app. Qed.

Lemma runs_bind {A B} (c : M A) (k : A -> M B) (plan1 plan2 : list i2c.event) :
  runs c plan1 ->
  (forall a, runs (k a) plan2) ->
  runs (bind c k) (plan1 ++ plan2).
Proof.
  intros Hc Hk self. destruct (Hc self) as (Ht & Hf & Hr & Hres).
  unfold bind. destruct (c self) as [[a|e] s1]; cbn [fst snd] in *.
  - destruct (steps_done_app_complete plan1 plan2 _ Hres) as [-> ->].
    rewrite Hres, firstn_all in Ht, Hr.
    destruct (Hk a s1) as (Ht2 & Hf2 & Hr2 & Hres2).
    rewrite Hf in Ht2, Hf2, Hr2, Hres2.
    rewrite firstn_app_2, apply_writes_app, <- Hr, app_assoc, <- Ht.
    repeat split; try assumption.
    destruct (fst (k a s1)).
    + rewrite length_app. lia.
    + destruct Hres2 as [-> Hlt]. split; [reflexivity|]. rewrite length_app. lia.
  - destruct Hres as [-> Hlt].
    destruct (steps_done_app_stopped plan1 plan2 _ Hlt) as [-> ->].
    rewrite firstn_app.
    replace (steps_done plan1 (i2c.faults (port self)) - length plan1)%nat
      with 0%nat by lia.
    cbn [firstn]. rewrite app_nil_r.
    repeat split; try assumption. rewrite length_app. lia.
Qed.

Lemma runs_write (register mask value starting_bit : Z) :
  0 <= starting_bit ->
  runs (_write_to_register register mask value starting_bit)
       [i2c.WriteRead register 1; i2c.WriteBytes register value].
Proof.
  intros Hs self.
  unfold _write_to_register, bind, on_port, lift, i2c.write_read, i2c.write_bytes,
    i2c.attempt, i2c.emit, i2c.peek.
  rewrite (lshift_ok _ _ Hs).
  cbn [i2c.regs i2c.trace i2c.faults].
  destruct (i2c.faults (port self)) as [|b1 [|b2 fs]]; cbn [hd tl];
    try destruct b1; try destruct b2; cbn;
    rewrite <- ?app_assoc, ?app_nil_r; repeat split; lia.
Qed.

Lemma runs_sleep (ms : Z) : runs (sleep ms) [i2c.Sleep ms].
Proof. intros self. cbn. repeat split. Qed.

Lemma runs_call (s : setter) (mode : Z) :
  in_domain s mode ->
  runs (call s mode)
       [i2c.WriteRead (register_of s) 1; i2c.WriteBytes (register_of s) mode].
Proof.
  intros Hd. unfold in_domain in Hd.
  destruct s; cbn [domain fst snd] in Hd; cbn [call register_of];
    unfold set_clock_source, set_accelerometer_scale, set_digital_low_pass_filter,
      set_external_sync, set_sleep, set_cycle, _set_temp_on_off,
      set_gyro_axis_on_off, _set_low_power_wake_up_frequency;
    rewrite ?not_in_0_1, ?not_in_0_3, ?not_in_0_7, between_true by exact Hd;
    try (apply runs_write; lia).
  (* set_accelerometer_scale: the assignment of the cache is no step *)
  rewrite <- (app_nil_r [i2c.WriteRead ACCEL_CONFIG 1; i2c.WriteBytes ACCEL_CONFIG mode]).
  apply runs_bind; [apply runs_write; lia|].
  intros _ self. cbn. rewrite app_nil_r. repeat split.
Qed.

Ltac next_steps :=
  match goal with
  | |- runs (bind _ _) (?a :: ?b :: ?rest) =>
      apply (runs_bind _ _ [a; b] rest); [|intros _]
  end.

(** Under every schedule of refusals, [reset_device] does its six steps in
    order up to the first refused transaction and stops there: the time line
    gains exactly the steps before it, the registers hold exactly the writes
    among them, every transaction tried used one entry of the schedule, the
    refused one included, so none is tried again; it raises [TransportError]
    when a transaction was refused and returns exactly when all six steps are
    done. *)
Theorem reset_device_runs_plan :
  runs reset_device
    [i2c.WriteRead PWR_MGMT_1 1; i2c.WriteBytes PWR_MGMT_1 1;
     i2c.Sleep 100;
     i2c.WriteRead SIGNAL_PATH_RESET 1; i2c.WriteBytes SIGNAL_PATH_RESET 7;
     i2c.Sleep 100].
Proof.
  unfold reset_device.
  next_steps; [apply runs_write; lia|].
  apply (runs_bind _ _ [i2c.Sleep 100]); [apply runs_sleep | intros _].
  next_steps; [apply runs_write; lia|].
  apply runs_sleep.
Qed.

(** Under every schedule of refusals, switching the low-power mode on
    (frequency in 0..3) or off does its ten, respectively eight, transactions
    in the order of the setters, each write carrying the argument of its
    setter, up to the first refused transaction and stops there: the time line
    gains exactly the transactions before it, the registers hold exactly the
    writes among them, no transaction is tried again, [TransportError] is
    raised when one was refused and the call returns exactly when all are
    done. *)
Theorem low_power_runs_plan (frequency : Z) :
  0 <= frequency <= 3 ->
  runs (set_low_power_accelerometer_only_on (Some frequency))
    [i2c.WriteRead PWR_MGMT_1 1; i2c.WriteBytes PWR_MGMT_1 1;
     i2c.WriteRead PWR_MGMT_1 1; i2c.WriteBytes PWR_MGMT_1 0;
     i2c.WriteRead PWR_MGMT_1 1; i2c.WriteBytes PWR_MGMT_1 1;
     i2c.WriteRead PWR_MGMT_2 1; i2c.WriteBytes PWR_MGMT_2 7;
     i2c.WriteRead PWR_MGMT_2 1; i2c.WriteBytes PWR_MGMT_2 frequency] /\
  runs set_low_power_accelerometer_only_off
    [i2c.WriteRead PWR_MGMT_1 1; i2c.WriteBytes PWR_MGMT_1 0;
     i2c.WriteRead PWR_MGMT_1 1; i2c.WriteBytes PWR_MGMT_1 0;
     i2c.WriteRead PWR_MGMT_1 1; i2c.WriteBytes PWR_MGMT_1 0;
     i2c.WriteRead PWR_MGMT_2 1; i2c.WriteBytes PWR_MGMT_2 0].
Proof.
  intros Hf. split.
  - unfold set_low_power_accelerometer_only_on, default,
      _set_low_power_accelerometer_only_off_on, set_temp_off.
    rewrite not_in_0_3, (between_true 0 3 frequency) by exact Hf.
    cbn [not_in existsb Z.eqb Pos.eqb orb negb].
    next_steps; [exact (runs_call cycle 1 ltac:(in_domain_now))|].
    next_steps; [exact (runs_call sleep_mode 0 ltac:(in_domain_now))|].
    next_steps; [exact (runs_call temp_on_off 1 ltac:(in_domain_now))|].
    next_steps; [exact (runs_call gyro_axis_on_off 7 ltac:(in_domain_now))|].
    exact (runs_call low_power_wake_up_frequency frequency ltac:(in_domain_now)).
  - unfold set_low_power_accelerometer_only_off,
      _set_low_power_accelerometer_only_off_on, set_temp_on.
    cbn [not_in existsb Z.eqb Pos.eqb orb negb].
    next_steps; [exact (runs_call cycle 0 ltac:(in_domain_now))|].
    next_steps; [exact (runs_call sleep_mode 0 ltac:(in_domain_now))|].
    next_steps; [exact (runs_call temp_on_off 0 ltac:(in_domain_now))|].
    exact (runs_call gyro_axis_on_off 0 ltac:(in_domain_now)).
Qed.

Lemma low_power_runs_plan_witness :
  0 <= 2 <= 3 /\
  runs (set_low_power_accelerometer_only_on (Some 2))
    [i2c.WriteRead PWR_MGMT_1 1; i2c.WriteBytes PWR_MGMT_1 1;
     i2c.WriteRead PWR_MGMT_1 1; i2c.WriteBytes PWR_MGMT_1 0;
     i2c.WriteRead PWR_MGMT_1 1; i2c.WriteBytes PWR_MGMT_1 1;
     i2c.WriteRead PWR_MGMT_2 1; i2c.WriteBytes PWR_MGMT_2 7;
     i2c.WriteRead PWR_MGMT_2 1; i2c.WriteBytes PWR_MGMT_2 2] /\
  runs set_low_power_accelerometer_only_off
    [i2c.WriteRead PWR_MGMT_1 1; i2c.WriteBytes PWR_MGMT_1 0;
     i2c.WriteRead PWR_MGMT_1 1; i2c.WriteBytes PWR_MGMT_1 0;
     i2c.WriteRead PWR_MGMT_1 1; i2c.WriteBytes PWR_MGMT_1 0;
     i2c.WriteRead PWR_MGMT_2 1; i2c.WriteBytes PWR_MGMT_2 0].
Proof.
  split; [lia | apply (low_power_runs_plan 2); lia].
Defined.

(** ** Construction *)

(** With one of the two addresses (0x68 when left out), construction opens
    the session at 400 kHz before any transaction and then issues a prefix of
    the six transactions of the default configuration, whatever the bus
    refuses.  It returns the object exactly when all six are done, with range
    1 cached; the first refused transaction raises [TransportError], and the
    session is left open: no [Stop] is issued. *)
Theorem construction_follows_plan (bus : i2c.I2C) (i2c_name : Z) (address : option Z) :
  default 0x68 address = 0x68 \/ default 0x68 address = 0x69 ->
  exists k,
    i2c.trace (snd (__init__ bus i2c_name address))
    = i2c.trace bus
      ++ i2c.Start i2c_name (default 0x68 address) 400000
         :: firstn k
              [i2c.WriteRead PWR_MGMT_1 1; i2c.WriteBytes PWR_MGMT_1 1;
               i2c.WriteRead ACCEL_CONFIG 1; i2c.WriteBytes ACCEL_CONFIG 1;
               i2c.WriteRead REG_CONFIG 1; i2c.WriteBytes REG_CONFIG 0] /\
    match fst (__init__ bus i2c_name address) with
    | Ok self =>
        k = 6%nat /\ _accel_full_range self = 1 /\
        port self = snd (__init__ bus i2c_name address)
    | Raise e => e = TransportError /\ (k < 6)%nat
    end.
Proof.
  intros Ha. unfold __init__.
  assert (negb (default 0x68 address =? 0x68) && negb (default 0x68 address =? 0x69)
          = false) as ->.
  { destruct Ha as [-> | ->]; reflexivity. }
  set (self0 := mkMyMPU 0 (i2c.start i2c_name (default 0x68 address) 400000 bus)).
  destruct (follows_configure_sensor_to_default self0) as (k & Ht & Hr).
  pose proof (configure_sensor_to_default_cache self0) as Hc.
  exists k.
  destruct (configure_sensor_to_default self0) as [[u|e] self1];
    cbn [fst snd] in *.
  - split; [|auto].
    rewrite Ht. unfold self0; cbn. now rewrite <- app_assoc.
  - split; [|exact Hr].
    rewrite Ht. unfold self0; cbn. now rewrite <- app_assoc.
Qed.

Lemma construction_follows_plan_witness :
  (default 0x68 None = 0x68 \/ default 0x68 None = 0x69) /\
  exists k,
    i2c.trace (snd (__init__ (device [] 0x40) 2 None))
    = i2c.trace (device [] 0x40)
      ++ i2c.Start 2 (default 0x68 None) 400000
         :: firstn k
              [i2c.WriteRead PWR_MGMT_1 1; i2c.WriteBytes PWR_MGMT_1 1;
               i2c.WriteRead ACCEL_CONFIG 1; i2c.WriteBytes ACCEL_CONFIG 1;
               i2c.WriteRead REG_CONFIG 1; i2c.WriteBytes REG_CONFIG 0] /\
    match fst (__init__ (device [] 0x40) 2 None) with
    | Ok self =>
        k = 6%nat /\ _accel_full_range self = 1 /\
        port self = snd (__init__ (device [] 0x40) 2 None)
    | Raise e => e = TransportError /\ (k < 6)%nat
    end.
Proof.
  split; [left; reflexivity|].
  apply (construction_follows_plan (device [] 0x40) 2 None). left; reflexivity.
Defined.

(** [Manager.__init__] of main.py opens the session, then issues a prefix of
    the six transactions of the default configuration followed by the ten of
    the low-power switch with frequency 3, whatever the bus refuses; it
    returns the driver, with range 1 cached, exactly when all sixteen are
    done, and raises [TransportError] otherwise. *)
Theorem manager_construction_follows_plan (bus : i2c.I2C) (i2c_name : Z) :
  exists k,
    i2c.trace (snd (Manager.__init__ bus i2c_name))
    = i2c.trace bus
      ++ i2c.Start i2c_name 0x68 400000
         :: firstn k
              [i2c.WriteRead PWR_MGMT_1 1; i2c.WriteBytes PWR_MGMT_1 1;
               i2c.WriteRead ACCEL_CONFIG 1; i2c.WriteBytes ACCEL_CONFIG 1;
               i2c.WriteRead REG_CONFIG 1; i2c.WriteBytes REG_CONFIG 0;
               i2c.WriteRead PWR_MGMT_1 1; i2c.WriteBytes PWR_MGMT_1 1;
               i2c.WriteRead PWR_MGMT_1 1; i2c.WriteBytes PWR_MGMT_1 0;
               i2c.WriteRead PWR_MGMT_1 1; i2c.WriteBytes PWR_MGMT_1 1;
               i2c.WriteRead PWR_MGMT_2 1; i2c.WriteBytes PWR_MGMT_2 7;
               i2c.WriteRead PWR_MGMT_2 1; i2c.WriteBytes PWR_MGMT_2 3] /\
    match fst (Manager.__init__ bus i2c_name) with
    | Ok accelerometer => k = 16%nat /\ _accel_full_range accelerometer = 1
    | Raise e => e = TransportError /\ (k < 16)%nat
    end.
Proof.
  assert (Hon : follows
            (configure_sensor_to_default ;; set_low_power_accelerometer_only_on None)
            ([i2c.WriteRead PWR_MGMT_1 1; i2c.WriteBytes PWR_MGMT_1 1;
              i2c.WriteRead ACCEL_CONFIG 1; i2c.WriteBytes ACCEL_CONFIG 1;
              i2c.WriteRead REG_CONFIG 1; i2c.WriteBytes REG_CONFIG 0]
             ++ [i2c.WriteRead PWR_MGMT_1 1; i2c.WriteBytes PWR_MGMT_1 1;
                 i2c.WriteRead PWR_MGMT_1 1; i2c.WriteBytes PWR_MGMT_1 0;
                 i2c.WriteRead PWR_MGMT_1 1; i2c.WriteBytes PWR_MGMT_1 1;
                 i2c.WriteRead PWR_MGMT_2 1; i2c.WriteBytes PWR_MGMT_2 7;
                 i2c.WriteRead PWR_MGMT_2 1; i2c.WriteBytes PWR_MGMT_2 3])).
  { apply follows_bind; [apply follows_configure_sensor_to_default | intros _].
    unfold set_low_power_accelerometer_only_on, default,
      _set_low_power_accelerometer_only_off_on, set_temp_off.
    cbn [not_in existsb Z.eqb Pos.eqb orb negb].
    next_pair; [exact (follows_call cycle 1 ltac:(in_domain_now))|].
    next_pair; [exact (follows_call sleep_mode 0 ltac:(in_domain_now))|].
    next_pair; [exact (follows_call temp_on_off 1 ltac:(in_domain_now))|].
    next_pair; [exact (follows_call gyro_axis_on_off 7 ltac:(in_domain_now))|].
    exact (follows_call low_power_wake_up_frequency 3 ltac:(in_domain_now)). }
  set (self0 := mkMyMPU 0 (i2c.start i2c_name 0x68 400000 bus)).
  destruct (Hon self0) as (k & Ht & Hr). exists k.
  pose proof (configure_sensor_to_default_cache self0) as Hc.
  unfold Manager.__init__, __init__, default.
  cbn [Z.eqb Pos.eqb negb andb]. fold self0.
  unfold bind in Ht, Hr.
  destruct (configure_sensor_to_default self0) as [[u|e] self1]; cbn [fst snd] in *.
  - pose proof (keeps_low_power 1 3 self1) as Hk.
    change (_set_low_power_accelerometer_only_off_on 1 3)
      with (set_low_power_accelerometer_only_on None) in Hk.
    destruct (set_low_power_accelerometer_only_on None self1) as [[u2|e2] self2];
      cbn [fst snd] in *.
    + split; [|split; [exact Hr | congruence]].
      rewrite Ht. unfold self0; cbn. now rewrite <- app_assoc.
    + split; [|exact Hr].
      rewrite Ht. unfold self0; cbn. now rewrite <- app_assoc.
  - split; [|exact Hr].
    rewrite Ht. unfold self0; cbn. now rewrite <- app_assoc.
Qed.

(** ** The cached range stays an index of the scale table *)

Lemma keeps_gives_range_ok {A} (c : M A) : keeps_cache c -> keeps_range_ok c.
Proof. intros H self Hr. unfold range_ok in *. now rewrite H. Qed.

Lemma range_ok_bind {A B} (c : M A) (k : A -> M B) :
  keeps_range_ok c -> (forall a, keeps_range_ok (k a)) -> keeps_range_ok (bind c k).
Proof.
  intros Hc Hk self Hr. unfold bind. specialize (Hc self Hr).
  destruct (c self) as [[a|e] s1]; cbn [snd] in *; [|exact Hc].
  now apply Hk.
Qed.

Lemma range_ok_set_accelerometer_scale (mode : Z) :
  keeps_range_ok (set_accelerometer_scale mode).
Proof.
  intros self Hr.
  pose proof (set_accelerometer_scale_cache mode self) as Hc.
  destruct (set_accelerometer_scale mode self) as [[[]|e] self1] eqn:E; cbn [snd].
  - destruct (set_accelerometer_scale_ok mode self self1 E) as [Hm Heq].
    unfold range_ok. now rewrite Heq.
  - unfold range_ok in *. now rewrite Hc.
Qed.

Lemma range_ok_call (s : setter) (mode : Z) : keeps_range_ok (call s mode).
Proof.
  destruct s; try (apply keeps_gives_range_ok, keeps_call; discriminate).
  apply range_ok_set_accelerometer_scale.
Qed.

Lemma range_ok_configure_sensor_to_default :
  keeps_range_ok configure_sensor_to_default.
Proof.
  unfold configure_sensor_to_default.
  apply range_ok_bind; [exact (range_ok_call clock_source 1) | intros _].
  apply range_ok_bind; [exact (range_ok_call accelerometer_scale 1) | intros _].
  exact (range_ok_call external_sync 0).
Qed.

Lemma range_ok_invoke (m : method) (self : MyMPU) :
  range_ok self -> range_ok (invoke m self).
Proof.
  destruct m; cbn [invoke].
  - apply (keeps_gives_range_ok close), keeps_on_port.
  - apply range_ok_configure_sensor_to_default.
  - apply (keeps_gives_range_ok (_reset_register register)), keeps_on_port.
  - apply (keeps_gives_range_ok _), keeps_write.
  - apply range_ok_call.
  - apply (keeps_gives_range_ok _), keeps_get_accelerometer_values.
  - apply (keeps_gives_range_ok _), keeps_get_pitch_and_roll.
  - apply (keeps_gives_range_ok _), keeps_reset_device.
  - exact (range_ok_call temp_on_off 0 self).
  - exact (range_ok_call temp_on_off 1 self).
  - apply (keeps_gives_range_ok _), (keeps_low_power 0 0).
  - apply (keeps_gives_range_ok _), (keeps_low_power 1 (default 3 frequency)).
  - apply (keeps_gives_range_ok _), keeps_low_power.
Qed.

(** Whatever methods are called on a constructed driver, with whatever
    arguments and whether they return or raise, the cached range stays one of
    0, 1, 2, 3: the lookup of [get_accelerometer_values] in [ACCEL_SCALE]
    never raises [IndexError] and never gives a zero divisor. *)
Theorem cached_range_indexes_scale_table
  (bus : i2c.I2C) (i2c_name : Z) (address : option Z) (self : MyMPU)
  (calls : list method) :
  fst (__init__ bus i2c_name address) = Ok self ->
  range_ok (session calls self) /\
  exists accel_scale,
    getitem ACCEL_SCALE (_accel_full_range (session calls self)) = Ok accel_scale /\
    (0 < accel_scale)%Q.
Proof.
  intros Hinit.
  assert (H1 : range_ok self).
  { unfold __init__ in Hinit.
    destruct (negb (default 0x68 address =? 0x68) && negb (default 0x68 address =? 0x69));
      [discriminate|].
    match type of Hinit with context [configure_sensor_to_default ?s] =>
      pose proof (configure_sensor_to_default_cache s) as Hc;
      destruct (configure_sensor_to_default s) as [[u|e] self1]
    end; cbn [fst] in Hinit; [|discriminate].
    injection Hinit as <-. unfold range_ok. rewrite Hc. lia. }
  assert (H2 : range_ok (session calls self)).
  { unfold session.
    clear Hinit. revert self H1.
    induction calls as [|m calls IH]; intros self H1; cbn [fold_left]; [exact H1|].
    apply IH. now apply range_ok_invoke. }
  split; [exact H2|].
  destruct (getitem_ACCEL_SCALE _ H2) as (accel_scale & Hs & _ & Hpos).
  now exists accel_scale.
Qed.

Lemma cached_range_indexes_scale_table_witness :
  fst (__init__ (device [] 0x40) 2 None) = Ok constructed /\
  range_ok
    (session [do_setter accelerometer_scale 3; do_setter accelerometer_scale 9;
              do_reset_device; do_get_pitch_and_roll] constructed) /\
  exists accel_scale,
    getitem ACCEL_SCALE
      (_accel_full_range
         (session [do_setter accelerometer_scale 3; do_setter accelerometer_scale 9;
                   do_reset_device; do_get_pitch_and_roll] constructed))
    = Ok accel_scale /\
    (0 < accel_scale)%Q.
Proof.
  split; [reflexivity|].
  apply (cached_range_indexes_scale_table (device [] 0x40) 2 None). reflexivity.
Defined.

(** ** A setter changes its register or nothing *)

Lemma in_domain_dec (s : setter) (mode : Z) : {in_domain s mode} + {~ in_domain s mode}.
Proof.
  unfold in_domain.
  destruct (Z_le_dec (fst (domain s)) mode), (Z_le_dec mode (snd (domain s)));
    solve [left; lia | right; lia].
Qed.

(** A setter that returns had its mode in the domain and changed one register,
    its own, which now holds the mode as given.  A setter that raises changed
    no register and not the cached range, whether it raised [ValueError] (mode
    out of the domain, the object as a whole is untouched) or
    [TransportError] (a refused transaction). *)
Theorem setter_changes_its_register_or_nothing
  (s : setter) (mode : Z) (self : MyMPU) :
  match call s mode self with
  | (Ok _, self') =>
      in_domain s mode /\
      i2c.regs (port self') = i2c.store (register_of s) mode (i2c.regs (port self))
  | (Raise e, self') =>
      i2c.regs (port self') = i2c.regs (port self) /\
      _accel_full_range self' = _accel_full_range self /\
      (in_domain s mode -> e = TransportError) /\
      (~ in_domain s mode -> e = ValueError /\ self' = self)
  end.
Proof.
  destruct (in_domain_dec s mode) as [Hd|Hd].
  2:{ rewrite (call_out_of_domain s mode self Hd).
      repeat split; trivial. intros H; contradiction. }
  assert (Hd' := Hd). unfold in_domain in Hd'.
  destruct s; cbn [domain fst snd] in Hd'; cbn [call register_of];
    unfold set_clock_source, set_accelerometer_scale, set_digital_low_pass_filter,
      set_external_sync, set_sleep, set_cycle, _set_temp_on_off,
      set_gyro_axis_on_off, _set_low_power_wake_up_frequency;
    rewrite ?not_in_0_1, ?not_in_0_3, ?not_in_0_7, between_true by exact Hd';
    unfold bind;
    match goal with
    | |- context [_write_to_register ?r ?m ?v ?b self] =>
        destruct (_write_to_register_cases r m v b self ltac:(lia))
          as [Hc [(Hr & Hregs & _)|(Hr & Hregs & _)]];
        destruct (_write_to_register r m v b self) as [[u|e] self1];
        cbn [fst snd] in *; try discriminate
    end;
    try (split; [exact Hd | exact Hregs]);
    injection Hr as ->;
    (split; [exact Hregs|]); (split; [exact Hc|]);
    (split; [reflexivity | intros H; contradiction]).
Qed.

(** ** Two's complement at any width, and the sample bytes *)

Lemma testbit_top (bits v : Z) :
  0 < bits -> 0 <= v < 2 ^ bits ->
  Z.testbit v (bits - 1) = (2 ^ (bits - 1) <=? v).
Proof.
  intros Hb Hv.
  assert (Hp : 2 ^ bits = 2 * 2 ^ (bits - 1)).
  { replace bits with (Z.succ (bits - 1)) at 1 by lia. apply Z.pow_succ_r. lia. }
  assert (Hk : 0 < 2 ^ (bits - 1)) by (apply Z.pow_pos_nonneg; lia).
  destruct (Z.leb_spec (2 ^ (bits - 1)) v) as [H|H].
  - apply Z.testbit_true; [lia|].
    assert (v / 2 ^ (bits - 1) = 1) as ->
      by (symmetry; apply Z.div_unique with (v - 2 ^ (bits - 1)); lia).
    reflexivity.
  - destruct (Z.eq_dec v 0) as [->|Hz]; [apply Z.bits_0|].
    apply Z.bits_above_log2; [lia|].
    apply Z.log2_lt_pow2; lia.
Qed.

(** What the decoder gives on an unsigned pattern is in the signed range and
    is the pattern again modulo 2^bits. *)
Lemma decode_in_range (bits v : Z) :
  0 < bits -> 0 <= v < 2 ^ bits ->
  - 2 ^ (bits - 1) <= _twos_comp_to_int v bits < 2 ^ (bits - 1) /\
  _twos_comp_to_int v bits mod 2 ^ bits = v.
Proof.
  intros Hb Hv.
  assert (Hp : 2 ^ bits = 2 * 2 ^ (bits - 1)).
  { replace bits with (Z.succ (bits - 1)) at 1 by lia. apply Z.pow_succ_r. lia. }
  rewrite _twos_comp_to_int_testbit, testbit_top by assumption.
  destruct (Z.leb_spec (2 ^ (bits - 1)) v) as [H|H].
  - split; [lia|]. symmetry. apply Z.mod_unique with (-1); lia.
  - split; [lia|]. apply Z.mod_small. lia.
Qed.

(** For every width [bits] >= 1, [_twos_comp_to_int] inverts the unsigned
    encoding on the whole signed range of that width, and on every unsigned
    pattern of that width it gives a value of the signed range that encodes
    to the pattern again. *)
Theorem twos_comp_any_width (bits n v : Z) :
  0 < bits ->
  - 2 ^ (bits - 1) <= n < 2 ^ (bits - 1) ->
  0 <= v < 2 ^ bits ->
  _twos_comp_to_int (n mod 2 ^ bits) bits = n /\
  - 2 ^ (bits - 1) <= _twos_comp_to_int v bits < 2 ^ (bits - 1) /\
  _twos_comp_to_int v bits mod 2 ^ bits = v.
Proof.
  intros Hb Hn Hv. split; [|now apply decode_in_range].
  assert (Hp : 2 ^ bits = 2 * 2 ^ (bits - 1)).
  { replace bits with (Z.succ (bits - 1)) at 1 by lia. apply Z.pow_succ_r. lia. }
  assert (Hm : 0 <= n mod 2 ^ bits < 2 ^ bits) by (apply Z.mod_pos_bound; lia).
  rewrite _twos_comp_to_int_testbit, testbit_top by assumption.
  destruct (Z_lt_le_dec n 0) as [Hneg|Hpos].
  - assert (n mod 2 ^ bits = n + 2 ^ bits) as ->
      by (symmetry; apply Z.mod_unique with (-1); lia).
    destruct (Z.leb_spec (2 ^ (bits - 1)) (n + 2 ^ bits)); lia.
  - rewrite Z.mod_small by lia.
    destruct (Z.leb_spec (2 ^ (bits - 1)) n); lia.
Qed.

Lemma twos_comp_any_width_witness :
  (0 < 8 /\ - 2 ^ (8 - 1) <= -3 < 2 ^ (8 - 1) /\ 0 <= 200 < 2 ^ 8) /\
  _twos_comp_to_int (-3 mod 2 ^ 8) 8 = -3 /\
  - 2 ^ (8 - 1) <= _twos_comp_to_int 200 8 < 2 ^ (8 - 1) /\
  _twos_comp_to_int 200 8 mod 2 ^ 8 = 200.
Proof.
  split; [cbn; lia|].
  apply (twos_comp_any_width 8 (-3) 200); cbn; lia.
Defined.

Lemma raw_axis_bytes (high low : Z) :
  0 <= high <= 255 -> 0 <= low <= 255 ->
  Z.lor (Z.shiftl high 8) low = high * 256 + low.
Proof.
  intros Hh Hl.
  rewrite <- (lor_shiftl_8 (high * 256 + low)).
  f_equal; [f_equal|].
  - apply Z.div_unique with low; lia.
  - apply Z.mod_unique with high; lia.
Qed.

(** The two bytes of an axis decode to a signed 16-bit value whose big-endian
    encoding is these two bytes again: decoding loses nothing, and different
    byte pairs give different values. *)
Theorem raw_axis_round_trip (high low high' low' : Z) :
  0 <= high <= 255 -> 0 <= low <= 255 ->
  0 <= high' <= 255 -> 0 <= low' <= 255 ->
  -32768 <= raw_axis high low <= 32767 /\
  be16 (raw_axis high low) = [high; low] /\
  (raw_axis high low = raw_axis high' low' -> high = high' /\ low = low').
Proof.
  intros Hh Hl Hh' Hl'.
  assert (Hback : forall h l, 0 <= h <= 255 -> 0 <= l <= 255 ->
            -32768 <= raw_axis h l <= 32767 /\ be16 (raw_axis h l) = [h; l]).
  { intros h l H1 H2. unfold raw_axis, be16, encode16.
    rewrite (raw_axis_bytes h l H1 H2).
    destruct (decode_in_range 16 (h * 256 + l)) as [Hr Hm]; [lia | cbn; lia |].
    change (2 ^ (16 - 1)) with 32768 in Hr. split; [lia|].
    rewrite Hm. f_equal; [|f_equal].
    - symmetry. apply Z.div_unique with l; lia.
    - symmetry. apply Z.mod_unique with h; lia. }
  destruct (Hback high low Hh Hl) as [Hr Hb].
  split; [exact Hr|]. split; [exact Hb|].
  intros Heq. destruct (Hback high' low' Hh' Hl') as [_ Hb'].
  rewrite <- Heq, Hb in Hb'. injection Hb' as -> ->. now split.
Qed.

Lemma raw_axis_round_trip_witness :
  (0 <= 0xFF <= 255 /\ 0 <= 0x38 <= 255 /\ 0 <= 0x00 <= 255 /\ 0 <= 0x01 <= 255) /\
  -32768 <= raw_axis 0xFF 0x38 <= 32767 /\
  be16 (raw_axis 0xFF 0x38) = [0xFF; 0x38] /\
  (raw_axis 0xFF 0x38 = raw_axis 0x00 0x01 -> 0xFF = 0x00 /\ 0x38 = 0x01).
Proof.
  split; [lia|].
  apply (raw_axis_round_trip 0xFF 0x38 0x00 0x01); lia.
Defined.

(** ** Reading a sample *)

Lemma get_accelerometer_values_refused (self : MyMPU) :
  hd false (i2c.faults (port self)) = true ->
  get_accelerometer_values self
  = (Raise TransportError,
     mkMyMPU (_accel_full_range self)
       (i2c.mkI2C (i2c.regs (port self)) (i2c.trace (port self))
                  (tl (i2c.faults (port self))))).
Proof.
  intros H. unfold get_accelerometer_values.
  unfold bind at 1. unfold on_port, i2c.write_read, i2c.attempt.
  now rewrite H.
Qed.

Lemma get_accelerometer_values_shape (self : MyMPU) :
  range_ok self ->
  i2c.regs (port (snd (get_accelerometer_values self))) = i2c.regs (port self) /\
  ((fst (get_accelerometer_values self) = Raise TransportError /\
    i2c.trace (port (snd (get_accelerometer_values self))) = i2c.trace (port self)) \/
   (exists v, fst (get_accelerometer_values self) = Ok v /\
    i2c.trace (port (snd (get_accelerometer_values self)))
    = i2c.trace (port self) ++ [i2c.WriteRead ACCEL_FIRST_REGISTER 6])).
Proof.
  intros Hr.
  destruct (hd false (i2c.faults (port self))) eqn:Hf.
  - rewrite (get_accelerometer_values_refused self Hf). cbn. split; [reflexivity|].
    left. split; reflexivity.
  - rewrite (get_accelerometer_values_ack _ _ _ _ _ _ self Hf eq_refl).
    destruct (getitem_ACCEL_SCALE _ Hr) as (accel_scale & -> & _).
    cbn. split; [reflexivity|]. right. eexists. split; reflexivity.
Qed.

(** A driver whose cached range is one of 0..3 (every constructed driver)
    only reads when it samples: [get_accelerometer_values] and
    [get_pitch_and_roll] issue at most one transaction, the read of the six
    sample bytes, never a write; they leave every register and the cached
    range as they were.  The first fails only with [TransportError], when the
    read is refused; the second also with [ZeroDivisionError], after the
    read. *)
Theorem getters_only_read (self : MyMPU) :
  range_ok self ->
  (i2c.regs (port (snd (get_accelerometer_values self))) = i2c.regs (port self) /\
   _accel_full_range (snd (get_accelerometer_values self)) = _accel_full_range self /\
   exists k,
     i2c.trace (port (snd (get_accelerometer_values self)))
     = i2c.trace (port self) ++ firstn k [i2c.WriteRead ACCEL_FIRST_REGISTER 6] /\
     match fst (get_accelerometer_values self) with
     | Ok _ => k = 1%nat
     | Raise e => e = TransportError /\ k = 0%nat
     end) /\
  (i2c.regs (port (snd (get_pitch_and_roll self))) = i2c.regs (port self) /\
   _accel_full_range (snd (get_pitch_and_roll self)) = _accel_full_range self /\
   exists k,
     i2c.trace (port (snd (get_pitch_and_roll self)))
     = i2c.trace (port self) ++ firstn k [i2c.WriteRead ACCEL_FIRST_REGISTER 6] /\
     match fst (get_pitch_and_roll self) with
     | Ok _ => k = 1%nat
     | Raise e =>
         (e = TransportError /\ k = 0%nat) \/ (e = ZeroDivisionError /\ k = 1%nat)
     end).
Proof.
  intros Hr.
  destruct (get_accelerometer_values_shape self Hr) as [Hregs Hcases].
  pose proof (keeps_get_accelerometer_values self) as Hc.
  split.
  - split; [exact Hregs|]. split; [exact Hc|].
    destruct Hcases as [[-> Ht]|(v & -> & Ht)].
    + exists 0%nat. cbn. rewrite app_nil_r. auto.
    + exists 1%nat. auto.
  - split; [|split; [apply keeps_get_pitch_and_roll|]].
    + unfold get_pitch_and_roll, bind, lift, ret.
      destruct (get_accelerometer_values self) as [[[[x y] z]|e] self1];
        cbn [snd] in *; [|exact Hregs].
      destruct (truediv (Q2R x) _); [|exact Hregs].
      destruct (truediv (Q2R y) _); exact Hregs.
    + unfold get_pitch_and_roll, bind, lift, ret.
      destruct (get_accelerometer_values self) as [[[[x y] z]|e] self1];
        cbn [fst snd] in *.
      * destruct Hcases as [[Hd _]|(v & _ & Ht)]; [discriminate|].
        exists 1%nat.
        destruct (truediv_cases (Q2R x) (sqrt (Q2R y * Q2R y + Q2R z * Q2R z)))
          as [-> | ->]; cbn [fst snd]; [auto|].
        destruct (truediv_cases (Q2R y) (sqrt (Q2R x * Q2R x + Q2R z * Q2R z)))
          as [-> | ->]; cbn [fst snd]; auto.
      * destruct Hcases as [[Hd Ht]|(v & Hd & _)]; [|discriminate].
        injection Hd as ->. exists 0%nat. cbn. rewrite app_nil_r. auto.
Qed.

Lemma getters_only_read_witness :
  range_ok along_x /\
  (i2c.regs (port (snd (get_accelerometer_values along_x))) = i2c.regs (port along_x) /\
   _accel_full_range (snd (get_accelerometer_values along_x))
   = _accel_full_range along_x /\
   exists k,
     i2c.trace (port (snd (get_accelerometer_values along_x)))
     = i2c.trace (port along_x) ++ firstn k [i2c.WriteRead ACCEL_FIRST_REGISTER 6] /\
     match fst (get_accelerometer_values along_x) with
     | Ok _ => k = 1%nat
     | Raise e => e = TransportError /\ k = 0%nat
     end) /\
  (i2c.regs (port (snd (get_pitch_and_roll along_x))) = i2c.regs (port along_x) /\
   _accel_full_range (snd (get_pitch_and_roll along_x)) = _accel_full_range along_x /\
   exists k,
     i2c.trace (port (snd (get_pitch_and_roll along_x)))
     = i2c.trace (port along_x) ++ firstn k [i2c.WriteRead ACCEL_FIRST_REGISTER 6] /\
     match fst (get_pitch_and_roll along_x) with
     | Ok _ => k = 1%nat
     | Raise e =>
         (e = TransportError /\ k = 0%nat) \/ (e = ZeroDivisionError /\ k = 1%nat)
     end).
Proof.
  assert (H : range_ok along_x) by (unfold range_ok; cbn; lia).
  split; [exact H | apply (getters_only_read along_x H)].
Defined.

(** ** The sample lies within the full scale *)

Lemma scaled_within_full_scale (i r : Z) (accel_scale : Q) :
  0 <= i <= 3 ->
  getitem ACCEL_SCALE i = Ok accel_scale ->
  -32768 <= r <= 32767 ->
  (- full_scale_g i <= inject_Z r / accel_scale
   /\ inject_Z r / accel_scale <= full_scale_g i)%Q.
Proof.
  intros Hi Hs Hr.
  assert (i = 0 \/ i = 1 \/ i = 2 \/ i = 3) as [-> | [-> | [-> | ->]]] by lia;
    cbv in Hs; injection Hs as <-;
    unfold Qle, Qdiv, Qmult, Qinv, Qopp, inject_Z, full_scale_g;
    cbn [Qnum Qden Z.opp Pos.mul Z.mul]; lia.
Qed.

(** When the device returns bytes (0..255), each axis that
    [get_accelerometer_values] returns lies between minus and plus the full
    scale of the cached range: 2 g, 4 g, 8 g, 16 g for the ranges 0, 1, 2,
    3. *)
Theorem sample_within_full_scale (self self' : MyMPU) (x y z : Q) :
  range_ok self ->
  (forall k, 0 <= k < 6 ->
     0 <= i2c.regs (port self) (ACCEL_FIRST_REGISTER + k) <= 255) ->
  get_accelerometer_values self = (Ok (x, y, z), self') ->
  (- full_scale_g (_accel_full_range self) <= x
   /\ x <= full_scale_g (_accel_full_range self))%Q /\
  (- full_scale_g (_accel_full_range self) <= y
   /\ y <= full_scale_g (_accel_full_range self))%Q /\
  (- full_scale_g (_accel_full_range self) <= z
   /\ z <= full_scale_g (_accel_full_range self))%Q.
Proof.
  intros Hr Hb Hget.
  destruct (hd false (i2c.faults (port self))) eqn:Hf.
  { rewrite (get_accelerometer_values_refused self Hf) in Hget. discriminate. }
  rewrite (get_accelerometer_values_ack _ _ _ _ _ _ self Hf eq_refl) in Hget.
  destruct (getitem_ACCEL_SCALE _ Hr) as (accel_scale & Hs & _).
  rewrite Hs in Hget. injection Hget as <- <- <- _.
  assert (B : forall k, 0 <= k < 6 ->
            0 <= i2c.regs (port self) (ACCEL_FIRST_REGISTER + Z.of_nat (Z.to_nat k)) <= 255).
  { intros k Hk. rewrite Z2Nat.id by lia. now apply Hb. }
  pose proof (B 0 ltac:(lia)) as B0. pose proof (B 1 ltac:(lia)) as B1.
  pose proof (B 2 ltac:(lia)) as B2. pose proof (B 3 ltac:(lia)) as B3.
  pose proof (B 4 ltac:(lia)) as B4. pose proof (B 5 ltac:(lia)) as B5.
  change (Z.to_nat 0) with 0%nat in B0. change (Z.to_nat 1) with 1%nat in B1.
  change (Z.to_nat 2) with 2%nat in B2. change (Z.to_nat 3) with 3%nat in B3.
  change (Z.to_nat 4) with 4%nat in B4. change (Z.to_nat 5) with 5%nat in B5.
  assert (R : forall h l, 0 <= h <= 255 -> 0 <= l <= 255 ->
            -32768 <= raw_axis h l <= 32767).
  { intros h l H1 H2. unfold raw_axis. rewrite (raw_axis_bytes h l H1 H2).
    destruct (decode_in_range 16 (h * 256 + l)) as [Hd _]; [lia | cbn; lia |].
    change (2 ^ (16 - 1)) with 32768 in Hd. lia. }
  repeat split;
    apply (scaled_within_full_scale _ _ _ Hr Hs); apply R; assumption.
Qed.

Lemma sample_within_full_scale_witness :
  (range_ok steep /\
   (forall k, 0 <= k < 6 ->
      0 <= i2c.regs (port steep) (ACCEL_FIRST_REGISTER + k) <= 255) /\
   get_accelerometer_values steep
   = (Ok ((32767 # 8192)%Q, (0 # 8192)%Q, (1 # 8192)%Q),
      read_done ACCEL_FIRST_REGISTER 6 steep)) /\
  (- full_scale_g (_accel_full_range steep) <= 32767 # 8192
   /\ 32767 # 8192 <= full_scale_g (_accel_full_range steep))%Q /\
  (- full_scale_g (_accel_full_range steep) <= 0 # 8192
   /\ 0 # 8192 <= full_scale_g (_accel_full_range steep))%Q /\
  (- full_scale_g (_accel_full_range steep) <= 1 # 8192
   /\ 1 # 8192 <= full_scale_g (_accel_full_range steep))%Q.
Proof.
  assert (H1 : range_ok steep) by (unfold range_ok; cbn; lia).
  assert (H2 : forall k, 0 <= k < 6 ->
            0 <= i2c.regs (port steep) (ACCEL_FIRST_REGISTER + k) <= 255).
  { intros k Hk.
    assert (k = 0 \/ k = 1 \/ k = 2 \/ k = 3 \/ k = 4 \/ k = 5)
      as [-> | [-> | [-> | [-> | [-> | ->]]]]] by lia;
      cbv; split; discriminate. }
  split; [split; [exact H1 | split; [exact H2 | reflexivity]]|].
  apply (sample_within_full_scale steep (read_done ACCEL_FIRST_REGISTER 6 steep));
    [exact H1 | exact H2 | reflexivity].
Defined.

(** ** Pitch and roll: when they exist, and where they lie *)

Section Angles.

Local Open Scope R_scope.

Lemma int_nonneg (r : R) : 0 <= r -> (0 <= int r)%Z.
Proof.
  intros Hr. unfold int. destruct (Rle_dec 0 r) as [_|H]; [|contradiction].
  destruct (base_Int_part r) as [_ H2].
  assert (H3 : IZR (-1) < IZR (Int_part r)) by (cbn; lra).
  apply lt_IZR in H3. lia.
Qed.

Lemma int_nonpos (r : R) : r <= 0 -> (int r <= 0)%Z.
Proof.
  intros Hr. unfold int. destruct (Rle_dec 0 r) as [H|H].
  - destruct (base_Int_part r) as [H1 _].
    assert (H3 : IZR (Int_part r) < IZR 1) by (cbn; lra).
    apply lt_IZR in H3. lia.
  - destruct (base_Int_part (- r)) as [_ H2].
    assert (H3 : IZR (-1) < IZR (Int_part (- r))) by (cbn; lra).
    apply lt_IZR in H3. lia.
Qed.

Lemma int_within (n : Z) (r : R) :
  - IZR n < r < IZR n -> (- (n - 1) <= int r <= n - 1)%Z.
Proof.
  intros [Hlo Hhi].
  destruct (Rle_dec 0 r) as [H|H].
  - pose proof (int_nonneg r H) as H0.
    unfold int in *. destruct (Rle_dec 0 r) as [_|C]; [|contradiction].
    destruct (base_Int_part r) as [H1 _].
    assert (H3 : IZR (Int_part r) < IZR n) by lra.
    apply lt_IZR in H3. lia.
  - assert (Hneg : r <= 0) by lra.
    pose proof (int_nonpos r Hneg) as H0.
    unfold int in *. destruct (Rle_dec 0 r) as [C|_]; [contradiction|].
    destruct (base_Int_part (- r)) as [H1 _].
    assert (H3 : IZR (Int_part (- r)) < IZR n) by lra.
    apply lt_IZR in H3. lia.
Qed.

Lemma degrees_within (q : R) : - IZR 91 < atan q * 180 / 3.14 < IZR 91.
Proof.
  pose proof (atan_bound q) as [H1 H2]. pose proof PI_bounds as [P1 P2].
  split; lra.
Qed.

Lemma atan_sign (q : R) : (0 <= q -> 0 <= atan q) /\ (q <= 0 -> atan q <= 0).
Proof.
  split; intros H.
  - destruct (Req_dec q 0) as [->|Hq]; [rewrite atan_0; lra|].
    pose proof (atan_increasing 0 q ltac:(lra)) as Hi. rewrite atan_0 in Hi. lra.
  - destruct (Req_dec q 0) as [->|Hq]; [rewrite atan_0; lra|].
    pose proof (atan_increasing q 0 ltac:(lra)) as Hi. rewrite atan_0 in Hi. lra.
Qed.

Lemma hypot_positive (a b : Q) :
  ~ (a == 0 /\ b == 0)%Q -> 0 < sqrt (Q2R a * Q2R a + Q2R b * Q2R b).
Proof.
  intros Hn. apply sqrt_lt_R0.
  assert (Ha : 0 <= Q2R a * Q2R a) by nra.
  assert (Hb : 0 <= Q2R b * Q2R b) by nra.
  destruct (Req_dec (Q2R a) 0) as [Ea|Na]; [|nra].
  destruct (Req_dec (Q2R b) 0) as [Eb|Nb]; [|nra].
  exfalso. apply Hn. split; apply eqR_Qeq.
  - rewrite Ea. unfold Q2R; cbn. lra.
  - rewrite Eb. unfold Q2R; cbn. lra.
Qed.

(** The angle [int (atan (a / d) * 180 / 3.14)] for a positive denominator. *)
Lemma angle_bounded (a : Q) (d : R) :
  0 < d ->
  (-90 <= int (atan (Q2R a / d) * 180 / 3.14) <= 90)%Z /\
  ((0 <= a)%Q -> (0 <= int (atan (Q2R a / d) * 180 / 3.14))%Z) /\
  ((a <= 0)%Q -> (int (atan (Q2R a / d) * 180 / 3.14) <= 0)%Z).
Proof.
  intros Hd.
  pose proof (int_within 91 _ (degrees_within (Q2R a / d))) as Hb.
  destruct (atan_sign (Q2R a / d)) as [Hp Hn].
  split; [lia|]. split; intros Ha.
  - apply int_nonneg. apply Qle_Rle in Ha.
    replace (Q2R 0) with 0 in Ha by (unfold Q2R; cbn; lra).
    assert (0 <= Q2R a / d) by (apply Rle_mult_inv_pos; assumption).
    specialize (Hp H). lra.
  - apply int_nonpos. apply Qle_Rle in Ha.
    replace (Q2R 0) with 0 in Ha by (unfold Q2R; cbn; lra).
    assert (Q2R a / d <= 0).
    { unfold Rdiv. assert (0 < / d) by now apply Rinv_0_lt_compat. nra. }
    specialize (Hn H). lra.
Qed.

End Angles.

(** Once the sample is read, [get_pitch_and_roll] returns whenever neither
    denominator is zero, that is unless y and z, or x and z, are both zero.
    The pitch and the roll it returns lie between -90 and 90 degrees, and have
    the sign of x, respectively of y, or are 0. *)
Theorem pitch_and_roll_defined_and_bounded (self self' : MyMPU) (x y z : Q) :
  get_accelerometer_values self = (Ok (x, y, z), self') ->
  ~ (y == 0 /\ z == 0)%Q ->
  ~ (x == 0 /\ z == 0)%Q ->
  exists pitch roll,
    get_pitch_and_roll self = (Ok (pitch, roll), self') /\
    -90 <= pitch <= 90 /\ -90 <= roll <= 90 /\
    ((0 <= x)%Q -> 0 <= pitch) /\ ((x <= 0)%Q -> pitch <= 0) /\
    ((0 <= y)%Q -> 0 <= roll) /\ ((y <= 0)%Q -> roll <= 0).
Proof.
  intros Hget Hp Hr.
  rewrite (get_pitch_and_roll_eq _ _ _ _ _ Hget).
  pose proof (hypot_positive y z Hp) as Dp.
  pose proof (hypot_positive x z Hr) as Dr.
  rewrite !truediv_nonzero by (apply Rgt_not_eq; assumption).
  destruct (angle_bounded x _ Dp) as (B1 & S1 & S2).
  destruct (angle_bounded y _ Dr) as (B2 & S3 & S4).
  eexists _, _. split; [reflexivity|].
  repeat split; solve [lia | assumption].
Qed.

Lemma pitch_and_roll_defined_and_bounded_witness :
  (get_accelerometer_values steep
   = (Ok ((32767 # 8192)%Q, (0 # 8192)%Q, (1 # 8192)%Q),
      read_done ACCEL_FIRST_REGISTER 6 steep) /\
   ~ ((0 # 8192) == 0 /\ (1 # 8192) == 0)%Q /\
   ~ ((32767 # 8192) == 0 /\ (1 # 8192) == 0)%Q) /\
  exists pitch roll,
    get_pitch_and_roll steep
    = (Ok (pitch, roll), read_done ACCEL_FIRST_REGISTER 6 steep) /\
    -90 <= pitch <= 90 /\ -90 <= roll <= 90 /\
    ((0 <= 32767 # 8192)%Q -> 0 <= pitch) /\ ((32767 # 8192 <= 0)%Q -> pitch <= 0) /\
    ((0 <= 0 # 8192)%Q -> 0 <= roll) /\ ((0 # 8192 <= 0)%Q -> roll <= 0).
Proof.
  assert (H1 : ~ ((0 # 8192) == 0 /\ (1 # 8192) == 0)%Q)
    by (intros [_ H]; discriminate H).
  assert (H2 : ~ ((32767 # 8192) == 0 /\ (1 # 8192) == 0)%Q)
    by (intros [_ H]; discriminate H).
  split; [split; [reflexivity | split; assumption]|].
  apply (pitch_and_roll_defined_and_bounded steep
           (read_done ACCEL_FIRST_REGISTER 6 steep)
           (32767 # 8192)%Q (0 # 8192)%Q (1 # 8192)%Q);
    [reflexivity | exact H1 | exact H2].
Defined.

(** What [get_pitch_and_roll] can raise, and the cache it leaves. *)
Lemma getters_only_read_aux (self : MyMPU) :
  range_ok self ->
  match fst (get_pitch_and_roll self) with
  | Ok _ => True
  | Raise e => e = TransportError \/ e = ZeroDivisionError
  end /\
  _accel_full_range (snd (get_pitch_and_roll self)) = _accel_full_range self.
Proof.
  intros Hr. split; [|apply keeps_get_pitch_and_roll].
  destruct (get_accelerometer_values_shape self Hr) as [_ Hcases].
  unfold get_pitch_and_roll, bind, lift, ret.
  destruct (get_accelerometer_values self) as [[[[x y] z]|e] self1];
    cbn [fst snd] in *.
  - destruct (truediv_cases (Q2R x) (sqrt (Q2R y * Q2R y + Q2R z * Q2R z)))
      as [-> | ->]; cbn [fst]; [auto|].
    destruct (truediv_cases (Q2R y) (sqrt (Q2R x * Q2R x + Q2R z * Q2R z)))
      as [-> | ->]; cbn [fst]; auto.
  - destruct Hcases as [[Hd _]|(v & Hd & _)]; [|discriminate].
    injection Hd as ->. auto.
Qed.

(** ** The sampling loop of main.py *)

Lemma get_accelerometer_values_frame (self : MyMPU) :
  i2c.regs (port (snd (get_accelerometer_values self))) = i2c.regs (port self) /\
  i2c.writes (i2c.trace (port (snd (get_accelerometer_values self))))
  = i2c.writes (i2c.trace (port self)).
Proof.
  destruct (hd false (i2c.faults (port self))) eqn:Hf.
  - rewrite (get_accelerometer_values_refused self Hf). split; reflexivity.
  - rewrite (get_accelerometer_values_ack _ _ _ _ _ _ self Hf eq_refl).
    destruct (getitem ACCEL_SCALE (_accel_full_range self)); cbn;
      rewrite writes_app; cbn; rewrite app_nil_r; split; reflexivity.
Qed.

Lemma get_pitch_and_roll_frame (self : MyMPU) :
  i2c.regs (port (snd (get_pitch_and_roll self))) = i2c.regs (port self) /\
  i2c.writes (i2c.trace (port (snd (get_pitch_and_roll self))))
  = i2c.writes (i2c.trace (port self)).
Proof.
  pose proof (get_accelerometer_values_frame self) as H.
  unfold get_pitch_and_roll, bind, lift, ret.
  destruct (get_accelerometer_values self) as [[[[x y] z]|e] self1];
    cbn [snd] in *; [|exact H].
  destruct (truediv (Q2R x) _); [|exact H].
  destruct (truediv (Q2R y) _); exact H.
Qed.

(** On a bus that acknowledges, what [get_pitch_and_roll] returns depends on
    the registers and the cached range only. *)
Lemma get_pitch_and_roll_quiet (self1 self2 : MyMPU) :
  i2c.quiet (port self1) -> i2c.quiet (port self2) ->
  i2c.regs (port self1) = i2c.regs (port self2) ->
  _accel_full_range self1 = _accel_full_range self2 ->
  fst (get_pitch_and_roll self1) = fst (get_pitch_and_roll self2) /\
  (forall v, fst (get_pitch_and_roll self1) = Ok v ->
     snd (get_pitch_and_roll self1) = read_done ACCEL_FIRST_REGISTER 6 self1).
Proof.
  intros Q1 Q2 Hregs Hc.
  unfold get_pitch_and_roll, bind, lift, ret.
  rewrite (get_accelerometer_values_ack _ _ _ _ _ _ self1 (quiet_hd _ Q1) eq_refl).
  rewrite (get_accelerometer_values_ack _ _ _ _ _ _ self2 (quiet_hd _ Q2) eq_refl).
  rewrite Hregs, Hc.
  destruct (getitem ACCEL_SCALE (_accel_full_range self2)); cbn [fst snd].
  - destruct (truediv _ _); cbn [fst snd]; [|split; [reflexivity | discriminate]].
    destruct (truediv _ _); cbn [fst snd]; split; solve [reflexivity | discriminate].
  - split; [reflexivity | discriminate].
Qed.

(** However long [Manager.start_blocking] runs and whatever the bus refuses,
    it never writes to the device: every register and the cached range are as
    at the start and the time line has gained no write.  The loop never ends
    by itself: after [turns] turns it is still running, with [turns] lines
    printed, unless an exception left it, which for a cached range in 0..3 is
    [TransportError] or [ZeroDivisionError]. *)
Theorem start_blocking_only_reads (turns : nat) (self : main.Manager) :
  range_ok (main.accelerometer self) ->
  i2c.regs (port (main.accelerometer (snd (main.start_blocking turns self))))
  = i2c.regs (port (main.accelerometer self)) /\
  _accel_full_range (main.accelerometer (snd (main.start_blocking turns self)))
  = _accel_full_range (main.accelerometer self) /\
  i2c.writes (i2c.trace (port (main.accelerometer (snd (main.start_blocking turns self)))))
  = i2c.writes (i2c.trace (port (main.accelerometer self))) /\
  match fst (main.start_blocking turns self) with
  | None =>
      length (main.console (snd (main.start_blocking turns self)))
      = (length (main.console self) + turns)%nat
  | Some e =>
      (e = TransportError \/ e = ZeroDivisionError) /\
      (length (main.console (snd (main.start_blocking turns self)))
       < length (main.console self) + turns)%nat
  end.
Proof.
  revert self. induction turns as [|turns IH]; intros self Hr.
  - cbn. repeat split; trivial; lia.
  - cbn [main.start_blocking].
    destruct (getters_only_read_aux (main.accelerometer self) Hr) as [He Hk].
    destruct (get_pitch_and_roll_frame (main.accelerometer self)) as [Hregs Hw].
    destruct (get_pitch_and_roll (main.accelerometer self))
      as [[[pitch roll]|e] a1]; cbn [fst snd] in *.
    + rewrite sleep_eq.
      assert (Hr1 : range_ok (slept 500 a1))
        by (unfold range_ok in *; cbn; now rewrite Hk).
      specialize (IH (main.mkManager (slept 500 a1)
                        (main.console self ++ [(pitch, roll)])) Hr1).
      cbn [main.accelerometer main.console] in IH.
      destruct IH as (I1 & I2 & I3 & I4).
      split; [now rewrite I1|]. split; [now rewrite I2|].
      split.
      * rewrite I3. cbn. rewrite writes_app. cbn. now rewrite app_nil_r.
      * destruct (fst (main.start_blocking turns _));
          rewrite length_app in I4; cbn in I4; [split; [tauto|] |]; lia.
    + cbn. repeat split; trivial; lia.
Qed.

Lemma start_blocking_only_reads_witness :
  range_ok (main.accelerometer (main.mkManager along_x [])) /\
  i2c.regs (port (main.accelerometer
                    (snd (main.start_blocking 3 (main.mkManager along_x [])))))
  = i2c.regs (port (main.accelerometer (main.mkManager along_x []))) /\
  _accel_full_range (main.accelerometer
                       (snd (main.start_blocking 3 (main.mkManager along_x []))))
  = _accel_full_range (main.accelerometer (main.mkManager along_x [])) /\
  i2c.writes (i2c.trace (port (main.accelerometer
                    (snd (main.start_blocking 3 (main.mkManager along_x []))))))
  = i2c.writes (i2c.trace (port (main.accelerometer (main.mkManager along_x [])))) /\
  match fst (main.start_blocking 3 (main.mkManager along_x [])) with
  | None =>
      length (main.console (snd (main.start_blocking 3 (main.mkManager along_x []))))
      = (length (main.console (main.mkManager along_x [])) + 3)%nat
  | Some e =>
      (e = TransportError \/ e = ZeroDivisionError) /\
      (length (main.console (snd (main.start_blocking 3 (main.mkManager along_x []))))
       < length (main.console (main.mkManager along_x [])) + 3)%nat
  end.
Proof.
  assert (H : range_ok (main.accelerometer (main.mkManager along_x [])))
    by (unfold range_ok; cbn; lia).
  split; [exact H|].
  apply (start_blocking_only_reads 3 (main.mkManager along_x []) H).
Defined.

(** On a bus that acknowledges and a device whose sample does not change,
    once [get_pitch_and_roll] returns a pitch and a roll the loop of
    [Manager.start_blocking] keeps running: every turn reads the six sample
    bytes once, prints the same pitch and roll, and waits 500 ms. *)
Theorem start_blocking_steady (turns : nat) (self : main.Manager) (pitch roll : Z) :
  i2c.quiet (port (main.accelerometer self)) ->
  fst (get_pitch_and_roll (main.accelerometer self)) = Ok (pitch, roll) ->
  fst (main.start_blocking turns self) = None /\
  main.console (snd (main.start_blocking turns self))
  = main.console self ++ repeat (pitch, roll) turns /\
  i2c.trace (port (main.accelerometer (snd (main.start_blocking turns self))))
  = i2c.trace (port (main.accelerometer self))
    ++ concat (repeat [i2c.WriteRead ACCEL_FIRST_REGISTER 6; i2c.Sleep 500] turns).
Proof.
  revert self. induction turns as [|turns IH]; intros self Hq Hok.
  - cbn. now rewrite !app_nil_r.
  - cbn [main.start_blocking].
    destruct (get_pitch_and_roll_quiet (main.accelerometer self) (main.accelerometer self)
                Hq Hq eq_refl eq_refl) as [_ Hsnd].
    specialize (Hsnd _ Hok).
    destruct (get_pitch_and_roll (main.accelerometer self)) as [[[p r]|e] a1] eqn:E;
      cbn [fst snd] in *; [|discriminate].
    injection Hok as -> ->. subst a1. rewrite sleep_eq.
    set (a2 := slept 500 (read_done ACCEL_FIRST_REGISTER 6 (main.accelerometer self))).
    assert (Hq2 : i2c.quiet (port a2)) by (apply quiet_tl; exact Hq).
    assert (Hok2 : fst (get_pitch_and_roll a2) = Ok (pitch, roll)).
    { destruct (get_pitch_and_roll_quiet a2 (main.accelerometer self)
                  Hq2 Hq eq_refl eq_refl) as [-> _].
      now rewrite E. }
    specialize (IH (main.mkManager a2 (main.console self ++ [(pitch, roll)])) Hq2 Hok2).
    cbn [main.accelerometer main.console] in IH.
    destruct IH as (I1 & I2 & I3).
    split; [exact I1|]. split.
    + rewrite I2, <- app_assoc. reflexivity.
    + rewrite I3. unfold a2; cbn. now rewrite <- !app_assoc.
Qed.

Lemma start_blocking_steady_witness :
  (i2c.quiet (port (main.accelerometer (main.mkManager level []))) /\
   fst (get_pitch_and_roll (main.accelerometer (main.mkManager level []))) = Ok (0, 0)) /\
  fst (main.start_blocking 2 (main.mkManager level [])) = None /\
  main.console (snd (main.start_blocking 2 (main.mkManager level [])))
  = main.console (main.mkManager level []) ++ repeat (0, 0) 2 /\
  i2c.trace (port (main.accelerometer (snd (main.start_blocking 2 (main.mkManager level [])))))
  = i2c.trace (port (main.accelerometer (main.mkManager level [])))
    ++ concat (repeat [i2c.WriteRead ACCEL_FIRST_REGISTER 6; i2c.Sleep 500] 2).
Proof.
  assert (Hq : i2c.quiet (port (main.accelerometer (main.mkManager level []))))
    by constructor.
  assert (Hok : fst (get_pitch_and_roll (main.accelerometer (main.mkManager level [])))
                = Ok (0, 0)).
  { cbn [main.accelerometer].
    rewrite (level_sample level (read_done ACCEL_FIRST_REGISTER 6 level)
               (0 # 8192)%Q (0 # 8192)%Q (8192 # 8192)%Q); reflexivity. }
  split; [split; assumption|].
  apply (start_blocking_steady 2 (main.mkManager level []) 0 0 Hq Hok).
Defined.
